(** * The stress-data merge-and-validate pipeline

    A shallow embedding of [StressDataHandler] (data_developer_utils.py),
    of the opening lines of the analysis scripts, and of the pandas and json
    operations they call. *)

From Stdlib Require Import ZArith Ascii String List Lia.
From Stdlib Require DecimalFacts DecimalPos DecimalN DecimalZ SpecFloat.
From stdpp Require Import base option list strings gmap.

Local Open Scope Z_scope.

(** ** Python: results and exceptions *)

Inductive exn : Type :=
  | FileNotFoundError
  | IsADirectoryError
  | PermissionError
  | UnicodeDecodeError
  | EmptyDataError
  | ParserError
  | ValueError (msg : string)
  | TypeError (msg : string).

Inductive result (A : Type) : Type :=
  | Ret (a : A)
  | Raise (e : exn).
Arguments Ret {A} a.
Arguments Raise {A} e.

(** ** IEEE 754 doubles

    The arithmetic is that of the Standard Library's [SpecFloat], at the
    precision and exponent range of binary64, rounding to nearest with ties
    to even. *)

Module binary64.

Definition prec : Z := 53.
Definition emax : Z := 1024.

(** A double that is not a NaN.  [sign] is set for the negative values; a
    finite value other than zero is [m * 2^e]. *)
Inductive t : Type :=
  | Zero (sign : bool)
  | Infinity (sign : bool)
  | Finite (sign : bool) (m : positive) (e : Z).

#[global] Instance t_eq_dec : EqDecision t.
Proof. solve_decision. Defined.

Definition to_spec (x : t) : SpecFloat.spec_float :=
  match x with
  | Zero s => SpecFloat.S754_zero s
  | Infinity s => SpecFloat.S754_infinity s
  | Finite s m e => SpecFloat.S754_finite s m e
  end.

(** The operations used here never yield a NaN; it is sent to zero. *)
Definition of_spec (x : SpecFloat.spec_float) : t :=
  match x with
  | SpecFloat.S754_zero s => Zero s
  | SpecFloat.S754_infinity s => Infinity s
  | SpecFloat.S754_finite s m e => Finite s m e
  | SpecFloat.S754_nan => Zero false
  end.

(** The mantissa has at most 53 bits and the exponent is the one of the
    normalised form. *)
Definition valid (x : t) : bool := SpecFloat.valid_binary prec emax (to_spec x).

Definition is_finite (x : t) : bool :=
  match x with Infinity _ => false | _ => true end.

(** The double nearest to an integer. *)
Definition of_Z (z : Z) : t :=
  of_spec (SpecFloat.binary_normalize prec emax z 0 false).

Definition opp (x : t) : t := of_spec (SpecFloat.SFopp (to_spec x)).
Definition sub (x y : t) : t :=
  of_spec (SpecFloat.SFsub prec emax (to_spec x) (to_spec y)).
Definition mul (x y : t) : t :=
  of_spec (SpecFloat.SFmul prec emax (to_spec x) (to_spec y)).
Definition ltb (x y : t) : bool := SpecFloat.SFltb (to_spec x) (to_spec y).
Definition eqb (x y : t) : bool := SpecFloat.SFeqb (to_spec x) (to_spec y).

(** The double nearest to [n / d]. *)
Definition of_ratio (sign : bool) (n d : positive) : t :=
  of_spec (SpecFloat.SFdiv prec emax (SpecFloat.S754_finite sign n 0)
                           (SpecFloat.S754_finite false d 0)).

(** The double nearest to [digits * 10^exponent]. *)
Definition of_decimal (sign : bool) (digits : N) (exponent : Z) : t :=
  match digits with
  | N0 => Zero sign
  | Npos p =>
      match exponent with
      | Zneg k => of_ratio sign p (10 ^ k)
      | _ => of_spec (SpecFloat.binary_normalize prec emax
                        (SpecFloat.cond_Zopp sign (Zpos p * 10 ^ exponent)) 0 sign)
      end
  end.

(** The integer part: the conversion of C from a double to an integer type
    that can hold it. *)
Definition trunc (x : t) : Z :=
  match x with
  | Finite s m e =>
      SpecFloat.cond_Zopp s
        (match e with
         | Zneg k => Z.shiftr (Zpos m) (Zpos k)
         | _ => Z.shiftl (Zpos m) e
         end)
  | _ => 0
  end.

(** A finite value other than zero as a fraction [n / d]. *)
Definition fraction (m : positive) (e : Z) : positive * positive :=
  match e with
  | Zneg k => (m, 2 ^ k)%positive
  | Zpos k => (m * 2 ^ k, 1)%positive
  | Z0 => (m, 1%positive)
  end.

End binary64.


(** ** JSON: documents, the writer behind [DataFrame.to_json], [json.loads]

    Texts are lists of characters here and become strings where pandas and
    the script handle them. *)

Module json.

Local Unset Elimination Schemes.

Inductive value : Type :=
  | Null
  | Bool (b : bool)
  | Int (z : Z)
  | Float (f : binary64.t)
  | Str (s : string)
  | Arr (items : list value)
  | Obj (members : list (string * value)).

Local Set Elimination Schemes.


Definition dquote : ascii := "034"%char.
Definition bslash : ascii := "092"%char.
Definition nl : ascii := "010"%char.
Definition space : ascii := "032"%char.

(** *** Encoder (pandas' ujson writer with [indent]) *)

Definition hex_digit (n : nat) : ascii :=
  nth n ["0"; "1"; "2"; "3"; "4"; "5"; "6"; "7"; "8"; "9";
         "a"; "b"; "c"; "d"; "e"; "f"]%char "0"%char.

(** One character of a string.  A character is its code point below 256;
    with [force_ascii] everything from 128 up is written as an escape. *)
Definition escape_char (c : ascii) : list ascii :=
  let n := nat_of_ascii c in
  if (c =? dquote)%char then [bslash; dquote]
  else if (c =? bslash)%char then [bslash; bslash]
  else if (c =? "/")%char then [bslash; "/"%char]
  else if (c =? "008")%char then [bslash; "b"%char]
  else if (c =? "012")%char then [bslash; "f"%char]
  else if (c =? "010")%char then [bslash; "n"%char]
  else if (c =? "013")%char then [bslash; "r"%char]
  else if (c =? "009")%char then [bslash; "t"%char]
  else if ((n <? 32) || (127 <? n))%nat then
    [bslash; "u"%char; "0"%char; "0"%char;
     hex_digit (n / 16); hex_digit (n mod 16)]
  else [c].

Definition quote (s : string) : list ascii :=
  dquote :: flat_map escape_char (list_ascii_of_string s) ++ [dquote].

Fixpoint chars_of_uint (u : Decimal.uint) : list ascii :=
  match u with
  | Decimal.Nil => []
  | Decimal.D0 u => "0"%char :: chars_of_uint u
  | Decimal.D1 u => "1"%char :: chars_of_uint u
  | Decimal.D2 u => "2"%char :: chars_of_uint u
  | Decimal.D3 u => "3"%char :: chars_of_uint u
  | Decimal.D4 u => "4"%char :: chars_of_uint u
  | Decimal.D5 u => "5"%char :: chars_of_uint u
  | Decimal.D6 u => "6"%char :: chars_of_uint u
  | Decimal.D7 u => "7"%char :: chars_of_uint u
  | Decimal.D8 u => "8"%char :: chars_of_uint u
  | Decimal.D9 u => "9"%char :: chars_of_uint u
  end.

Definition encode_int (z : Z) : list ascii :=
  match Z.to_int z with
  | Decimal.Pos u => chars_of_uint u
  | Decimal.Neg u => "-"%char :: chars_of_uint u
  end.

(** *** Doubles as the writer prints them

    A number literal: an optional minus sign, the digits of the integer
    part, the digits after the point if there is one, and the exponent, a
    sign and digits, if there is one. *)
Record literal : Type := mkLiteral {
  negative : bool;
  integer : Decimal.uint;
  fraction : option Decimal.uint;
  exponent : option (bool * Decimal.uint)
}.

Definition chars_of_literal (l : literal) : list ascii :=
  (if negative l then ["-"%char] else [])
  ++ chars_of_uint (integer l)
  ++ match fraction l with
     | Some f => "."%char :: chars_of_uint f
     | None => []
     end
  ++ match exponent l with
     | Some (s, e) =>
         "e"%char :: (if s : bool then "-"%char else "+"%char) :: chars_of_uint e
     | None => []
     end.

(** [zeros k u]: [u] with [k] zeros in front. *)
Definition zeros (k : nat) (u : Decimal.uint) : Decimal.uint :=
  Nat.iter k Decimal.D0 u.

(** Dropping the zeros at the end of [frac], [count] going down by one for
    each.  [fuel] bounds their number: a 64-bit integer other than zero
    ends in fewer than twenty. *)
Fixpoint strip_zeros (fuel : nat) (count : Z) (frac : Z) : Z * Z :=
  match fuel with
  | O => (count, frac)
  | S fuel =>
      if (frac mod 10 =? 0) then strip_zeros fuel (count - 1) (frac / 10)
      else (count, frac)
  end.

(** The digits after the point for a fraction of [frac] units of
    [10^-places], [frac] not zero: no zero at the end, and zeros in front
    to make up the places. *)
Definition fraction_digits (places : Z) (frac : Z) : Decimal.uint :=
  let '(count, frac) := strip_zeros 20 places frac in
  let digits := N.to_uint (Z.to_N frac) in
  zeros (Z.to_nat (count - Z.of_nat (Decimal.nb_digits digits))) digits.

(** [double_precision], the default of [to_json]. *)
Definition double_precision : Z := 10.

(** The writer's own conversion of a double, for the values it does not
    leave to [printf]. *)
Definition fixed_literal (value : binary64.t) : literal :=
  let neg := binary64.ltb value (binary64.Zero false) in
  let value := if neg then binary64.opp value else value in
  let pow10 := binary64.of_Z (10 ^ double_precision) in
  let whole := binary64.trunc value in
  let tmp := binary64.mul (binary64.sub value (binary64.of_Z whole)) pow10 in
  let frac := binary64.trunc tmp in
  let diff := binary64.sub tmp (binary64.of_Z frac) in
  let half := binary64.of_decimal false 5 (-1) in
  let '(whole, frac) :=
    if binary64.ltb half diff then
      if (10 ^ double_precision <=? frac + 1) then (whole + 1, 0)
      else (whole, frac + 1)
    else if binary64.eqb diff half && ((frac =? 0) || Z.odd frac) then
      (whole, frac + 1)
    else (whole, frac) in
  {| negative := neg;
     integer := N.to_uint (Z.to_N whole);
     fraction := Some (if frac =? 0 then Decimal.D0 Decimal.Nil
                       else fraction_digits double_precision frac);
     exponent := None |}.

(** The number of decimal digits of a positive integer. *)
Definition nb_digits (n : Z) : Z :=
  Z.of_nat (Decimal.nb_digits (N.to_uint (Z.to_N n))).

(** The decimal exponent of the fraction [n / d]: the [x] with
    [10^x <= n / d < 10^(x+1)]. *)
Definition decimal_exponent (n d : Z) : Z :=
  if (d <=? n) then nb_digits (n / d) - 1
  else - nb_digits ((d + n - 1) / n - 1).

(** [n / d] rounded to the nearest integer, a tie going to the even one. *)
Definition round_half_even (n d : Z) : Z :=
  let q := n / d in
  let r := n mod d in
  match 2 * r ?= d with
  | Lt => q
  | Gt => q + 1
  | Eq => if Z.even q then q else q + 1
  end.

(** The exponent of a number in scientific notation: a sign and at least
    two digits. *)
Definition exponent_digits (x : Z) : bool * Decimal.uint :=
  (x <? 0,
   if (Z.abs x <? 10) then Decimal.D0 (N.to_uint (Z.to_N (Z.abs x)))
   else N.to_uint (Z.to_N (Z.abs x))).

(** [printf] with [%.10g] on a finite value other than zero whose decimal
    exponent is below -4 or at least 10: one digit, the point and up to
    nine more digits without zeros at the end, and the exponent. *)
Definition printf_literal (sign : bool) (m : positive) (e : Z) : literal :=
  let '(n, d) := binary64.fraction m e in
  let x := decimal_exponent (Zpos n) (Zpos d) in
  let shift := double_precision - 1 - x in
  let q := if (0 <=? shift)
           then round_half_even (Zpos n * 10 ^ shift) (Zpos d)
           else round_half_even (Zpos n) (Zpos d * 10 ^ (- shift)) in
  let '(q, x) := if (10 ^ double_precision <=? q)
                 then (10 ^ (double_precision - 1), x + 1) else (q, x) in
  let unit := 10 ^ (double_precision - 1) in
  {| negative := sign;
     integer := N.to_uint (Z.to_N (q / unit));
     fraction := if (q mod unit =? 0) then None
                 else Some (fraction_digits (double_precision - 1) (q mod unit));
     exponent := Some (exponent_digits x) |}.

(** Beyond these the writer leaves the conversion to [printf]. *)
Definition thres_max : binary64.t :=
  binary64.sub (binary64.of_Z (10 ^ 16)) (binary64.of_Z 1).
Definition thres_min : binary64.t := binary64.of_decimal false 1 (-15).

(** The literal of a finite double. *)
Definition double_literal (value : binary64.t) : literal :=
  match value with
  | binary64.Finite sign m e =>
      let magnitude := binary64.Finite false m e in
      if binary64.ltb thres_max magnitude || binary64.ltb magnitude thres_min
      then printf_literal sign m e
      else fixed_literal value
  | _ => fixed_literal value
  end.

Definition encode_double (value : binary64.t) : list ascii :=
  chars_of_literal (double_literal value).

(** The line break after an opening bracket, after a comma and before a
    closing bracket: present only when indenting. *)
Definition newline (indent : nat) : list ascii :=
  if (indent =? 0)%nat then [] else [nl].

(** [level] times [indent] spaces. *)
Definition pad (indent level : nat) : list ascii :=
  replicate (level * indent) space.

Definition join (sep : list ascii) (parts : list (list ascii)) : list ascii :=
  match parts with
  | [] => []
  | p :: ps => p ++ flat_map (fun q => sep ++ q) ps
  end.

(** [encode indent level v]: the text of [v] when it sits at nesting depth
    [level].  No space follows [','] or [':'].  An infinite double is
    written as [null]. *)
Fixpoint encode (indent level : nat) (v : value) : list ascii :=
  match v with
  | Null => list_ascii_of_string "null"
  | Bool true => list_ascii_of_string "true"
  | Bool false => list_ascii_of_string "false"
  | Int z => encode_int z
  | Float f =>
      if binary64.is_finite f then encode_double f
      else list_ascii_of_string "null"
  | Str s => quote s
  | Arr items =>
      "["%char :: newline indent
      ++ join (","%char :: newline indent)
           (map (fun x => pad indent (S level) ++ encode indent (S level) x)
                items)
      ++ newline indent ++ pad indent level ++ ["]"%char]
  | Obj members =>
      "{"%char :: newline indent
      ++ join (","%char :: newline indent)
           (map (fun m => pad indent (S level) ++ quote m.1
                          ++ ":"%char :: encode indent (S level) m.2)
                members)
      ++ newline indent ++ pad indent level ++ ["}"%char]
  end.

Definition dumps (indent : nat) (v : value) : string :=
  string_of_list_ascii (encode indent 0 v).

(** *** Parser ([json.loads])

    [None] stands for the exception [json.loads] ends with.  The literals
    [NaN] and [Infinity] and escapes of code points from 256 up are outside
    the model: the parser answers [None] on them. *)

Definition is_ws (c : ascii) : bool :=
  ((c =? " ") || (c =? "009") || (c =? "010") || (c =? "013"))%char.

Fixpoint skip_ws (s : list ascii) : list ascii :=
  match s with
  | c :: r => if is_ws c then skip_ws r else s
  | [] => []
  end.

(** [chop p s]: [s] without its prefix [p]. *)
Fixpoint chop (p s : list ascii) : option (list ascii) :=
  match p, s with
  | [], _ => Some s
  | a :: p', b :: s' => if (a =? b)%char then chop p' s' else None
  | _ :: _, [] => None
  end.

Definition hex_value (c : ascii) : option nat :=
  let n := nat_of_ascii c in
  if ((48 <=? n) && (n <=? 57))%nat then Some (n - 48)%nat
  else if ((97 <=? n) && (n <=? 102))%nat then Some (n - 87)%nat
  else if ((65 <=? n) && (n <=? 70))%nat then Some (n - 55)%nat
  else None.

Definition hex4 (a b c d : ascii) : option nat :=
  x ← hex_value a; y ← hex_value b; z ← hex_value c; w ← hex_value d;
  Some (((x * 16 + y) * 16 + z) * 16 + w)%nat.

Definition unescape (e : ascii) : option ascii :=
  if (e =? dquote)%char then Some dquote
  else if (e =? bslash)%char then Some bslash
  else if (e =? "/")%char then Some "/"%char
  else if (e =? "b")%char then Some "008"%char
  else if (e =? "f")%char then Some "012"%char
  else if (e =? "n")%char then Some "010"%char
  else if (e =? "r")%char then Some "013"%char
  else if (e =? "t")%char then Some "009"%char
  else None.

Definition cons_fst (c : ascii) (r : option (list ascii * list ascii))
  : option (list ascii * list ascii) :=
  prod_map (cons c) id <$> r.

(** The characters of a string literal after its opening quote, up to the
    closing quote. *)
Fixpoint parse_string_body (s : list ascii) : option (list ascii * list ascii) :=
  match s with
  | [] => None
  | c :: r =>
      if (c =? dquote)%char then Some ([], r)
      else if (c =? bslash)%char then
        match r with
        | [] => None
        | e :: r1 =>
            if (e =? "u")%char then
              match r1 with
              | h1 :: h2 :: h3 :: h4 :: r2 =>
                  match hex4 h1 h2 h3 h4 with
                  | Some n =>
                      if (n <? 256)%nat
                      then cons_fst (ascii_of_nat n) (parse_string_body r2)
                      else None
                  | None => None
                  end
              | _ => None
              end
            else
              match unescape e with
              | Some c' => cons_fst c' (parse_string_body r1)
              | None => None
              end
        end
      else if (nat_of_ascii c <? 32)%nat then None
      else cons_fst c (parse_string_body r)
  end.

Definition digit_cons (c : ascii) : option (Decimal.uint -> Decimal.uint) :=
  if (c =? "0")%char then Some Decimal.D0
  else if (c =? "1")%char then Some Decimal.D1
  else if (c =? "2")%char then Some Decimal.D2
  else if (c =? "3")%char then Some Decimal.D3
  else if (c =? "4")%char then Some Decimal.D4
  else if (c =? "5")%char then Some Decimal.D5
  else if (c =? "6")%char then Some Decimal.D6
  else if (c =? "7")%char then Some Decimal.D7
  else if (c =? "8")%char then Some Decimal.D8
  else if (c =? "9")%char then Some Decimal.D9
  else None.

(** The longest run of digits at the front of [s]. *)
Fixpoint read_uint (s : list ascii) : Decimal.uint * list ascii :=
  match s with
  | [] => (Decimal.Nil, [])
  | c :: r =>
      match digit_cons c with
      | Some d => prod_map d id (read_uint r)
      | None => (Decimal.Nil, s)
      end
  end.

(** The integer part of a number: a lone [0], or a run of digits that does
    not start with [0]. *)
Definition parse_digits (s : list ascii) : option (Decimal.uint * list ascii) :=
  match s with
  | [] => None
  | c :: r =>
      if (c =? "0")%char then Some (Decimal.D0 Decimal.Nil, r)
      else match digit_cons c with
           | Some _ => Some (read_uint s)
           | None => None
           end
  end.

(** The text after a run of digits that ends it. *)
Definition nondigit (s : list ascii) : bool :=
  match s with
  | [] => true
  | c :: _ => match digit_cons c with Some _ => false | None => true end
  end.

(** A point followed by at least one digit. *)
Definition lex_fraction (s : list ascii) : option Decimal.uint * list ascii :=
  match s with
  | c :: d :: r =>
      if (c =? ".")%char then
        match digit_cons d with
        | Some _ => prod_map Some id (read_uint (d :: r))
        | None => (None, s)
        end
      else (None, s)
  | _ => (None, s)
  end.

(** [e] or [E], an optional sign and at least one digit. *)
Definition lex_exponent (s : list ascii)
  : option (bool * Decimal.uint) * list ascii :=
  match s with
  | c :: d :: r =>
      if ((c =? "e") || (c =? "E"))%char then
        if ((d =? "-") || (d =? "+"))%char then
          match r with
          | d' :: _ =>
              match digit_cons d' with
              | Some _ => prod_map (fun u => Some ((d =? "-")%char, u)) id
                                   (read_uint r)
              | None => (None, s)
              end
          | [] => (None, s)
          end
        else
          match digit_cons d with
          | Some _ => prod_map (fun u => Some (false, u)) id (read_uint (d :: r))
          | None => (None, s)
          end
      else (None, s)
  | _ => (None, s)
  end.

(** The longest number literal at the front of [s]. *)
Definition lex_number (s : list ascii) : option (literal * list ascii) :=
  let '(neg, s1) :=
    match s with
    | c :: r => if (c =? "-")%char then (true, r) else (false, s)
    | [] => (false, s)
    end in
  '(i, r1) ← parse_digits s1;
  let '(f, r2) := lex_fraction r1 in
  let '(e, r3) := lex_exponent r2 in
  Some ({| negative := neg; integer := i; fraction := f; exponent := e |}, r3).

(** The longest integer literal that [int] converts. *)
Definition max_str_digits : nat := 4300.

(** The value of a literal: without fraction and exponent it is an
    integer, refused when it has too many digits; otherwise it is the
    double nearest to the number written. *)
Definition number_of_literal (l : literal) : option value :=
  match fraction l, exponent l with
  | None, None =>
      if (max_str_digits <? Decimal.nb_digits (integer l))%nat then None
      else Some (Int (Z.of_int (if negative l then Decimal.Neg (integer l)
                                else Decimal.Pos (integer l))))
  | f, e =>
      let frac := default Decimal.Nil f in
      let exp10 := match e with
                   | Some (s, u) => SpecFloat.cond_Zopp s (Z.of_N (N.of_uint u))
                   | None => 0
                   end in
      Some (Float (binary64.of_decimal
                     (negative l)
                     (N.of_uint (Decimal.app (integer l) frac))
                     (exp10 - Z.of_nat (Decimal.nb_digits frac))))
  end.

Definition parse_number (s : list ascii) : option (value * list ascii) :=
  '(l, r) ← lex_number s;
  v ← number_of_literal l;
  Some (v, r).

(** The interpreter's recursion limit, at its default. *)
Definition recursion_limit : nat := 1000.

(** The levels of nesting [json.loads] accepts when it is called from the
    top level of a module: the recursion limit less the six levels that
    the call itself takes (CPython 3.11). *)
Definition max_nesting : nat := recursion_limit - 6.

(** A value, given the parsers for what an opening bracket and an opening
    brace start; [depth] is the number of levels of nesting still allowed. *)
Definition value_step (depth : nat)
    (items : list ascii -> option (list value * list ascii))
    (members : list ascii -> option (list (string * value) * list ascii))
    (s : list ascii) : option (value * list ascii) :=
  match skip_ws s with
  | [] => None
  | c :: r =>
      if (c =? "n")%char then
        r' ← chop (list_ascii_of_string "ull") r; Some (Null, r')
      else if (c =? "t")%char then
        r' ← chop (list_ascii_of_string "rue") r; Some (Bool true, r')
      else if (c =? "f")%char then
        r' ← chop (list_ascii_of_string "alse") r; Some (Bool false, r')
      else if (c =? dquote)%char then
        '(t, r') ← parse_string_body r;
        Some (Str (string_of_list_ascii t), r')
      else if (c =? "[")%char then
        if (depth =? 0)%nat then None else
        match skip_ws r with
        | [] => None
        | c' :: r' =>
            if (c' =? "]")%char then Some (Arr [], r')
            else '(l, r'') ← items r; Some (Arr l, r'')
        end
      else if (c =? "{")%char then
        if (depth =? 0)%nat then None else
        match skip_ws r with
        | [] => None
        | c' :: r' =>
            if (c' =? "}")%char then Some (Obj [], r')
            else '(l, r'') ← members r; Some (Obj l, r'')
        end
      else
        parse_number (c :: r)
  end.

(** The elements of an array after its opening bracket, up to and
    including the closing bracket. *)
Definition items_step
    (element : list ascii -> option (value * list ascii))
    (items : list ascii -> option (list value * list ascii))
    (s : list ascii) : option (list value * list ascii) :=
  '(v, r) ← element s;
  match skip_ws r with
  | [] => None
  | c :: r' =>
      if (c =? ",")%char then
        '(vs, r'') ← items r'; Some (v :: vs, r'')
      else if (c =? "]")%char then Some ([v], r')
      else None
  end.

(** The members of an object after its opening brace, up to and including
    the closing brace. *)
Definition members_step
    (element : list ascii -> option (value * list ascii))
    (members : list ascii -> option (list (string * value) * list ascii))
    (s : list ascii) : option (list (string * value) * list ascii) :=
  match skip_ws s with
  | [] => None
  | c :: r =>
      if (c =? dquote)%char then
        '(k, r1) ← parse_string_body r;
        match skip_ws r1 with
        | [] => None
        | c1 :: r2 =>
            if (c1 =? ":")%char then
              '(v, r3) ← element r2;
              match skip_ws r3 with
              | [] => None
              | c3 :: r4 =>
                  if (c3 =? ",")%char then
                    '(ms, r5) ← members r4;
                    Some ((string_of_list_ascii k, v) :: ms, r5)
                  else if (c3 =? "}")%char then
                    Some ([(string_of_list_ascii k, v)], r4)
                  else None
              end
            else None
        end
      else None
  end.

(** [depth] counts the levels of nesting that may still be opened; [fuel]
    only bounds the recursion and is given in excess by [loads]. *)
Fixpoint parse_value (fuel depth : nat) (s : list ascii)
  : option (value * list ascii) :=
  match fuel with
  | O => None
  | S fuel =>
      value_step depth (parse_items fuel (pred depth))
                 (parse_members fuel (pred depth)) s
  end
with parse_items (fuel depth : nat) (s : list ascii)
  : option (list value * list ascii) :=
  match fuel with
  | O => None
  | S fuel => items_step (parse_value fuel depth) (parse_items fuel depth) s
  end
with parse_members (fuel depth : nat) (s : list ascii)
  : option (list (string * value) * list ascii) :=
  match fuel with
  | O => None
  | S fuel => members_step (parse_value fuel depth) (parse_members fuel depth) s
  end.

(** [json.loads(text)] *)
Definition loads (text : string) : option value :=
  let s := list_ascii_of_string text in
  '(v, r) ← parse_value (S (length s)) max_nesting s;
  match skip_ws r with
  | [] => Some v
  | _ :: _ => None
  end.

End json.

(** ** pandas: the table operations the scripts call

    The library is not part of the repository; the operations below follow
    its behaviour on frames as [read_csv] returns them. *)

Module pd.

(** A cell of a frame read from CSV: the missing value [NaN], an integer,
    a double other than NaN, a boolean or a text. *)
Inductive cell : Type :=
  | NaN
  | Int (z : Z)
  | Float (f : binary64.t)
  | Bool (b : bool)
  | Str (s : string).

#[global] Instance cell_eq_dec : EqDecision cell.
Proof. solve_decision. Defined.

(** A frame over a [RangeIndex]: [index] is the number of row labels
    [0 .. index-1], and [series] holds the columns left to right, each a
    name with its cells top to bottom.  Column names may repeat. *)
Record DataFrame : Type := mkDataFrame {
  index : nat;
  series : list (string * list cell)
}.

(** [df.columns] *)
Definition columns (d : DataFrame) : list string := fst <$> series d.

(** [df.shape] *)
Definition shape (d : DataFrame) : nat * nat := (index d, length (series d)).

(** Every column has one cell per row label. *)
Definition well_formed (d : DataFrame) : Prop :=
  Forall (fun s => length s.2 = index d) (series d).

(** Re-labelling a column to [RangeIndex(n)]: label [i] keeps its cell when
    the column has one and is [NaN] otherwise. *)
Definition reindex (n : nat) (s : list cell) : list cell :=
  take n s ++ replicate (n - length s) NaN.

(** [pd.concat([a, b], axis=1)] with the default [join='outer']: the row
    labels are the union of both indexes, the columns of [a] are followed by
    those of [b], names untouched. *)
Definition concat_axis1 (a b : DataFrame) : DataFrame :=
  let n := Nat.max (index a) (index b) in
  {| index := n;
     series := (prod_map id (reindex n) <$> series a)
            ++ (prod_map id (reindex n) <$> series b) |}.

Definition isna (c : cell) : bool :=
  match c with NaN => true | _ => false end.

(** [df.isnull()]: the frame of null flags. *)
Definition isnull (d : DataFrame) : list (string * list bool) :=
  prod_map id (map isna) <$> series d.

(** [.sum()] of a boolean frame: per column, the number of [True]. *)
Definition sum_frame (f : list (string * list bool)) : list (string * Z) :=
  prod_map id (fun l => Z.of_nat (length (filter (fun b => b = true) l))) <$> f.

(** [.sum()] of a series of counts. *)
Definition sum_series (s : list (string * Z)) : Z :=
  foldr Z.add 0 (snd <$> s).

(** [df.rename(columns=mapper)]: a column named by a key of [mapper] takes
    the key's value as its name; the others keep theirs. *)
Definition rename (d : DataFrame) (mapper : gmap string string) : DataFrame :=
  {| index := index d;
     series := prod_map (fun c => default c (mapper !! c)) id <$> series d |}.

(** The dtype of a column is the one its cells need: integers alone make
    an [int64] column, numbers and missing values a [float64] column,
    booleans alone a [bool] column, and anything else an [object] column. *)
Inductive dtype : Type := int64 | float64 | bool_ | object.

Definition is_int (c : cell) : bool :=
  match c with Int _ => true | _ => false end.

Definition is_numeric (c : cell) : bool :=
  match c with NaN | Int _ | Float _ => true | _ => false end.

Definition is_bool (c : cell) : bool :=
  match c with Bool _ => true | _ => false end.

Definition dtype_of (cells : list cell) : dtype :=
  match cells with
  | [] => object
  | _ =>
      if forallb is_int cells then int64
      else if forallb is_numeric cells then float64
      else if forallb is_bool cells then bool_
      else object
  end.

(** How a column holds a cell: in a [float64] column an integer is held
    as the double nearest to it. *)
Definition astype (t : dtype) (c : cell) : cell :=
  match t, c with
  | float64, Int z => Float (binary64.of_Z z)
  | _, _ => c
  end.

(** The values of a column as it holds them. *)
Definition values (cells : list cell) : list cell :=
  astype (dtype_of cells) <$> cells.

(** [df.iloc[i, j]] *)
Definition iloc (d : DataFrame) (i j : nat) : option cell :=
  s ← series d !! j; values s.2 !! i.

Definition to_json_value (c : cell) : json.value :=
  match c with
  | NaN => json.Null
  | Int z => json.Int z
  | Float f => json.Float f
  | Bool b => json.Bool b
  | Str s => json.Str s
  end.

(** Row [i] as an object: one member per column, in column order. *)
Definition record (d : DataFrame) (i : nat) : json.value :=
  json.Obj ((fun s => (s.1, to_json_value (default NaN (values s.2 !! i))))
            <$> series d).

Definition records (d : DataFrame) : json.value :=
  json.Arr (record d <$> seq 0 (index d)).

(** [df.to_json(orient='records', indent=indent)]: refused when two columns
    share a name.  Missing values and infinite doubles are written as
    [null], the other doubles with [double_precision] at its default. *)
Definition to_json (d : DataFrame) (indent : nat) : result string :=
  if decide (NoDup (columns d)) then Ret (json.dumps indent (records d))
  else Raise (ValueError "DataFrame columns must be unique for orient='records'.").

End pd.

(** ** The state the methods run in *)

(** The handler object: its three attributes.  [df = None] is Python's
    [None]. *)
Record StressDataHandler : Type := mkHandler {
  stress_path : string;
  stress_level_path : string;
  df : option pd.DataFrame
}.

(** Why [read_csv] fails on a path that exists: the path is a directory,
    the file may not be read, it is not UTF-8 text, it is empty, or its
    lines do not make a table. *)
Inductive read_failure : Type :=
  | is_a_directory
  | permission_denied
  | not_utf8
  | no_columns
  | malformed.

(** The exception [read_csv] raises for each. *)
Definition raised (f : read_failure) : exn :=
  match f with
  | is_a_directory => IsADirectoryError
  | permission_denied => PermissionError
  | not_utf8 => UnicodeDecodeError
  | no_columns => EmptyDataError
  | malformed => ParserError
  end.

(** What a run can see and change: the CSV files that [read_csv] reads,
    each with the table it returns for it; the paths that exist and that
    [read_csv] fails on, each with the reason (looked up for a path that is
    not among the first); the text files written; the lines printed so
    far; and the handler object [self].  A path that is in neither of the
    first two does not exist. *)
Record state : Type := mkState {
  csv_files : gmap string pd.DataFrame;
  unreadable : gmap string read_failure;
  text_files : gmap string string;
  stdout : list string;
  self : StressDataHandler
}.

Definition M (A : Type) : Type := state -> result A * state.

#[global] Instance M_ret : MRet M := fun A a st => (Ret a, st).
#[global] Instance M_bind : MBind M := fun A B f m st =>
  match m st with
  | (Ret a, st') => f a st'
  | (Raise e, st') => (Raise e, st')
  end.

Definition raise {A} (e : exn) : M A := fun st => (Raise e, st).

(** [try: body  except FileNotFoundError: handler] *)
Definition try_except_FileNotFoundError {A} (body handler : M A) : M A :=
  fun st =>
    match body st with
    | (Raise FileNotFoundError, st') => handler st'
    | r => r
    end.

Definition get_self : M StressDataHandler := fun st => (Ret (self st), st).

Definition set_self (h : StressDataHandler) : M unit := fun st =>
  (Ret tt, {| csv_files := csv_files st; unreadable := unreadable st;
              text_files := text_files st; stdout := stdout st; self := h |}).

(** [self.stress_path = v], [self.stress_level_path = v], [self.df = v] *)
Definition setattr_stress_path (v : string) : M unit :=
  this ← get_self;
  set_self {| stress_path := v;
              stress_level_path := stress_level_path this;
              df := df this |}.

Definition setattr_stress_level_path (v : string) : M unit :=
  this ← get_self;
  set_self {| stress_path := stress_path this;
              stress_level_path := v;
              df := df this |}.

Definition setattr_df (v : option pd.DataFrame) : M unit :=
  this ← get_self;
  set_self {| stress_path := stress_path this;
              stress_level_path := stress_level_path this;
              df := v |}.

Definition print (line : string) : M unit := fun st =>
  (Ret tt, {| csv_files := csv_files st; unreadable := unreadable st;
              text_files := text_files st; stdout := stdout st ++ [line];
              self := self st |}).

(** [pd.read_csv(path)] *)
Definition read_csv (path : string) : M pd.DataFrame := fun st =>
  match csv_files st !! path with
  | Some d => (Ret d, st)
  | None =>
      match unreadable st !! path with
      | Some f => (Raise (raised f), st)
      | None => (Raise FileNotFoundError, st)
      end
  end.

(** [with open(path, 'w') as f: f.write(text)] *)
Definition write_text (path text : string) : M unit := fun st =>
  (Ret tt, {| csv_files := csv_files st; unreadable := unreadable st;
              text_files := <[path := text]> (text_files st);
              stdout := stdout st; self := self st |}).

(** ** data_developer_utils.py *)

Module data_developer_utils.

Definition _load_and_merge_data : M (option pd.DataFrame) :=
  this ← get_self;
  loaded ← try_except_FileNotFoundError
    (stress_df ← read_csv (stress_path this);
     stress_level_df ← read_csv (stress_level_path this);
     mret (Some (stress_df, stress_level_df)))
    (print "Make sure the CSV files are in the correct directory.";;
     mret None);
  match loaded with
  | None => mret None
  | Some (stress_df, stress_level_df) =>
      mret (Some (pd.concat_axis1 stress_df stress_level_df))
  end.

Definition __init__ (stress_path stress_level_path : string) : M unit :=
  setattr_stress_path stress_path;;
  setattr_stress_level_path stress_level_path;;
  merged ← _load_and_merge_data;
  setattr_df merged.

Definition validate_data : M bool :=
  this ← get_self;
  match df this with
  | None => mret false
  | Some d =>
      if 0 <? pd.sum_series (pd.sum_frame (pd.isnull d)) then
        print "Error: Missing values found in the data.";;
        mret false
      else
        let expected_columns := ["Gender"; "Age"; "stress_level"] in
        if negb (forallb (fun col => bool_decide (col ∈ pd.columns d))
                         expected_columns) then
          print "Error: Missing expected columns.";;
          mret false
        else
          print "Data validation successful.";;
          mret true
  end.

(** [get_data_as_json()] with its default [orient='records'], as the
    script calls it. *)
Definition get_data_as_json : M (option string) :=
  this ← get_self;
  match df this with
  | None => mret None
  | Some d =>
      match pd.to_json d 4 with
      | Ret text => mret (Some text)
      | Raise e => raise e
      end
  end.

(** The [__main__] block. *)
Definition main : M unit :=
  __init__ "archive(10)/Stress_Dataset.csv"
           "archive(10)/StressLevelDataset.csv";;
  ok ← validate_data;
  if (ok : bool) then
    json_data ← get_data_as_json;
    match json_data with
    | Some text =>
        write_text "stress_data.json" text;;
        print (String json.nl "Successfully saved data to stress_data.json")
    | None => raise (TypeError "write() argument must be str, not None")
    end
  else mret tt.

End data_developer_utils.

(** ** interactive_data_analysis.py: the merge and the renaming

    Python rejects this file: the string literals opened at lines 87, 107
    and 110 are not closed on their line.  No line of it ever runs; what
    follows is what lines 126 to 154 say, were they reached. *)

Module interactive_data_analysis.

Definition new_column_names : gmap string string :=
  list_to_map [
    ("Have you recently experienced stress in your life?", "experienced_stress");
    ("Have you noticed a rapid heartbeat or palpitations?", "rapid_heartbeat");
    ("Have you been dealing with anxiety or tension recently?", "anxiety_tension");
    ("Do you face any sleep problems or difficulties falling asleep?", "sleep_problems");
    ("Have you been getting headaches more often than usual?", "headaches");
    ("Do you get irritated easily?", "irritability");
    ("Do you have trouble concentrating on your academic tasks?", "concentration_difficulty");
    ("Have you been feeling sadness or low mood?", "low_mood");
    ("Have you been experiencing any illness or health issues?", "health_issues");
    ("Do you often feel lonely or isolated?", "loneliness");
    ("Do you feel overwhelmed with your academic workload?", "workload_overwhelm");
    ("Are you in competition with your peers, and does it affect you?", "peer_competition");
    ("Do you find that your relationship often causes you stress?", "relationship_stress");
    ("Are you facing any difficulties with your professors or instructors?", "professor_difficulties");
    ("Is your working environment unpleasant or stressful?", "unpleasant_environment");
    ("Do you struggle to find time for relaxation and leisure activities?", "no_relaxation_time");
    ("Is your hostel or home environment causing you difficulties?", "home_environment_issues");
    ("Do you lack confidence in your academic performance?", "low_academic_confidence");
    ("Do you lack confidence in your choice of academic subjects?", "low_subject_confidence");
    ("Academic and extracurricular activities conflicting for you?", "activity_conflict");
    ("Do you attend classes regularly?", "regular_class_attendance");
    ("Have you gained/lost weight?", "weight_change");
    ("Which type of stress do you primarily experience?", "stress_type")
  ].

(** [merged_df] as line 126, [pd.concat(..., axis=1)], and line 154,
    [rename(columns=new_column_names, inplace=True)], define it. *)
Definition merged_df (stress_df stress_level_df : pd.DataFrame) : pd.DataFrame :=
  pd.rename (pd.concat_axis1 stress_df stress_level_df) new_column_names.

End interactive_data_analysis.

(** ** pandas: selecting columns by name *)

Module pd_getitem.

(** [KeyError]: the labels that were asked for and are not columns. *)
Inductive selected (A : Type) : Type :=
  | Found (a : A)
  | KeyError (missing : list string).
Arguments Found {A} a.
Arguments KeyError {A} missing.

(** The columns of [d] named [label], left to right. *)
Definition named (d : pd.DataFrame) (label : string)
  : list (string * list pd.cell) :=
  filter (fun s => s.1 = label) (pd.series d).

(** [df[labels]] with a list of labels: for each label in turn, every
    column of that name; refused when a label names no column. *)
Definition getitem_list (d : pd.DataFrame) (labels : list string)
  : selected pd.DataFrame :=
  match filter (fun l => l ∉ pd.columns d) labels with
  | [] => Found {| pd.index := pd.index d;
                   pd.series := flat_map (named d) labels |}
  | missing => KeyError missing
  end.

(** What [df[label]] is for a single label: a series when one column has
    the name, a frame of all of them when several have. *)
Inductive column : Type :=
  | Series (cells : list pd.cell)
  | Frame (d : pd.DataFrame).

Definition getitem (d : pd.DataFrame) (label : string) : selected column :=
  match named d label with
  | [] => KeyError [label]
  | [s] => Found (Series s.2)
  | several => Found (Frame {| pd.index := pd.index d; pd.series := several |})
  end.

End pd_getitem.

(** ** machine_learning_analysis.py: features and target *)

Module machine_learning_analysis.

Definition features : list string :=
  ["anxiety_level"; "self_esteem"; "mental_health_history"; "depression";
   "headache"; "blood_pressure"; "sleep_quality"; "breathing_problem";
   "noise_level"; "living_conditions"; "safety"; "basic_needs";
   "academic_performance"; "study_load"; "teacher_student_relationship";
   "future_career_concerns"; "social_support"; "peer_pressure";
   "extracurricular_activities"; "bullying"].

Definition target : string := "stress_level".

(** [X = merged_df[features]] *)
Definition X (merged_df : pd.DataFrame) : pd_getitem.selected pd.DataFrame :=
  pd_getitem.getitem_list merged_df features.

(** [y = merged_df[target]] *)
Definition y (merged_df : pd.DataFrame) : pd_getitem.selected pd_getitem.column :=
  pd_getitem.getitem merged_df target.

End machine_learning_analysis.

(** ** The analysis scripts: loading and merging

    saas_dashboard_analysis.py and machine_learning_analysis.py start with
    the same lines: both files are read, a file that does not exist ends
    the run through [exit()], any other failure to read one ends it with
    the exception, and the frames are merged. *)

Module scripts.

(** How the opening lines end: the run goes on with a value, [exit()]
    stops it, or an exception escapes. *)
Inductive outcome (A : Type) : Type :=
  | Continue (a : A)
  | SystemExit
  | Uncaught (e : exn).
Arguments Continue {A} a.
Arguments SystemExit {A}.
Arguments Uncaught {A} e.

Definition merged_df : state -> outcome pd.DataFrame * state := fun st =>
  match
    try_except_FileNotFoundError
      (stress_df ← read_csv "archive(10)/Stress_Dataset.csv";
       stress_level_df ← read_csv "archive(10)/StressLevelDataset.csv";
       mret (Some (stress_df, stress_level_df)))
      (print "Make sure the CSV files are in the 'archive(10)' directory.";;
       mret None)
      st
  with
  | (Ret (Some (stress_df, stress_level_df)), st') =>
      (Continue (pd.concat_axis1 stress_df stress_level_df), st')
  | (Ret None, st') => (SystemExit, st')
  | (Raise e, st') => (Uncaught e, st')
  end.

End scripts.

(** ** Vocabulary of the specification *)


Definition is_digit (c : ascii) : bool :=
  ((48 <=? nat_of_ascii c) && (nat_of_ascii c <=? 57))%nat.


(** A cell of the frame is null. *)
Definition has_null (d : pd.DataFrame) : Prop :=
  exists s, s ∈ pd.series d /\ pd.NaN ∈ s.2.

(** Every required column is among the frame's columns. *)
Definition has_required_columns (d : pd.DataFrame) : Prop :=
  "Gender" ∈ pd.columns d /\ "Age" ∈ pd.columns d /\ "stress_level" ∈ pd.columns d.

(** The state after one more printed line. *)
Definition printed (st : state) (line : string) : state :=
  {| csv_files := csv_files st; unreadable := unreadable st;
     text_files := text_files st;
     stdout := stdout st ++ [line]; self := self st |}.

(** No file is at [path]. *)
Definition absent (st : state) (path : string) : Prop :=
  csv_files st !! path = None /\ unreadable st !! path = None.

(** The handler state left by a load that found a file missing. *)
Definition not_loaded (st : state) (p q : string) : state :=
  {| csv_files := csv_files st; unreadable := unreadable st;
     text_files := text_files st;
     stdout := stdout st
               ++ ["Make sure the CSV files are in the correct directory."];
     self := {| stress_path := p; stress_level_path := q; df := None |} |}.

(** The state in which an exception leaves [__init__]: the two paths are
    set, and [df] is not. *)
Definition paths_set (st : state) (p q : string) : state :=
  {| csv_files := csv_files st; unreadable := unreadable st;
     text_files := text_files st; stdout := stdout st;
     self := {| stress_path := p; stress_level_path := q;
                df := df (self st) |} |}.


(** The text of a cell as a column holds it: [null] for a missing value
    and for an infinite double, [true] or [false], the decimal digits of an
    integer, the literal of a finite double, and a text between quotation
    marks with its escapes. *)
Definition scalar (c : pd.cell) : list ascii :=
  match c with
  | pd.NaN => list_ascii_of_string "null"
  | pd.Int z => json.encode_int z
  | pd.Float f =>
      if binary64.is_finite f then json.encode_double f
      else list_ascii_of_string "null"
  | pd.Bool true => list_ascii_of_string "true"
  | pd.Bool false => list_ascii_of_string "false"
  | pd.Str s => json.quote s
  end.

(** The layout of the exported text, written out: the brackets of the
    array at the margin, the braces of each record 4 spaces in, each member
    8 spaces in on a line of its own, a comma at the end of every line but
    the last of its group. *)
Definition member_line (i : nat) (s : string * list pd.cell) : list ascii :=
  list_ascii_of_string "        " ++ json.quote s.1
  ++ ":"%char :: scalar (default pd.NaN (pd.values s.2 !! i)).



(** The handler state after a load that found both files. *)
Definition loaded_from (st : state) (p q : string) (d : pd.DataFrame) : state :=
  {| csv_files := csv_files st; unreadable := unreadable st;
     text_files := text_files st; stdout := stdout st;
     self := {| stress_path := p; stress_level_path := q; df := Some d |} |}.

(** The text after a number that ends it: the end of the input, or a
    character that is neither a digit nor the start of a fraction or an
    exponent. *)
Definition stops (rest : list ascii) : bool :=
  match rest with
  | [] => true
  | c :: _ =>
      json.nondigit rest && negb ((c =? ".") || (c =? "e") || (c =? "E"))%char
  end.

(** Decimal digits as [Z.to_int] writes them: a lone zero, or digits that
    do not start with a zero. *)
Definition canonical (u : Decimal.uint) : bool :=
  match u with
  | Decimal.Nil => false
  | Decimal.D0 Decimal.Nil => true
  | Decimal.D0 _ => false
  | _ => true
  end.

(** A literal as the writer makes them: the integer part is canonical, and
    a fraction or an exponent has at least one digit. *)
Definition literal_ok (l : json.literal) : Prop :=
  canonical (json.integer l) = true
  /\ json.fraction l <> Some Decimal.Nil
  /\ forall s u, json.exponent l = Some (s, u) -> u <> Decimal.Nil.

(** The literal of an integer. *)
Definition int_literal (z : Z) : json.literal :=
  {| json.negative := z <? 0;
     json.integer := N.to_uint (Z.to_N (Z.abs z));
     json.fraction := None;
     json.exponent := None |}.

(** The first character of a number. *)
Definition number_start (c : ascii) : bool :=
  (c =? "-")%char || is_digit c.

(** A bound on the fuel that parsing a value back takes. *)
Fixpoint size (v : json.value) : nat :=
  match v with
  | json.Arr items => S (sum_list (map (fun x => S (size x)) items))
  | json.Obj members => S (sum_list (map (fun m => S (size m.2)) members))
  | _ => 1
  end.

(** The levels of nesting of a value. *)
Fixpoint depth (v : json.value) : nat :=
  match v with
  | json.Arr items => S (foldr Nat.max 0%nat (map depth items))
  | json.Obj members => S (foldr Nat.max 0%nat (map (fun m => depth m.2) members))
  | _ => 0
  end.

(** The double that the literal of a double is read as. *)
Definition reread_double (f : binary64.t) : binary64.t :=
  let l := json.double_literal f in
  binary64.of_decimal
    (json.negative l)
    (N.of_uint (Decimal.app (json.integer l) (default Decimal.Nil (json.fraction l))))
    (match json.exponent l with
     | Some (s, u) => SpecFloat.cond_Zopp s (Z.of_N (N.of_uint u))
     | None => 0
     end
     - Z.of_nat (Decimal.nb_digits (default Decimal.Nil (json.fraction l)))).

(** A double is written without loss when it is finite and the number
    parser of [json.loads] reads its literal as the same double. *)
Definition lossless (f : binary64.t) : Prop :=
  binary64.is_finite f = true
  /\ match json.parse_number (json.encode_double f) with
     | Some (json.Float g, []) => g = f
     | _ => False
     end.

(** What the text of a value is read as: itself, but for the doubles. *)
Fixpoint reread (v : json.value) : json.value :=
  match v with
  | json.Float f =>
      if binary64.is_finite f then json.Float (reread_double f) else json.Null
  | json.Arr items => json.Arr (map reread items)
  | json.Obj members => json.Obj (map (fun m => (m.1, reread m.2)) members)
  | _ => v
  end.

(** The integers of a value have no more digits than [json.loads] takes. *)
Fixpoint short_integers (v : json.value) : Prop :=
  match v with
  | json.Int z =>
      - 10 ^ Z.of_nat json.max_str_digits < z < 10 ^ Z.of_nat json.max_str_digits
  | json.Arr items => foldr and True (map short_integers items)
  | json.Obj members => foldr and True (map (fun m => short_integers m.2) members)
  | _ => True
  end.

(** Reading a value back, for every indent and nesting depth, whatever
    follows it. *)
Definition reads_back (v : json.value) : Prop :=
  forall indent level fuel budget rest,
    (size v <= fuel)%nat -> (depth v <= budget)%nat -> stops rest = true ->
    json.parse_value fuel budget (json.encode indent level v ++ rest)
    = Some (reread v, rest).

(** The numbers of a table are those of the 64-bit dtypes: an integer is
    in the range of [int64] or of [uint64], a double is a binary64 value in
    its normal form. *)
Definition int64_range (z : Z) : Prop := - 2 ^ 63 <= z < 2 ^ 64.

Definition cell_typed (c : pd.cell) : Prop :=
  match c with
  | pd.Int z => int64_range z
  | pd.Float f => binary64.valid f = true
  | _ => True
  end.

Definition typed (d : pd.DataFrame) : Prop :=
  Forall (fun s => Forall cell_typed s.2) (pd.series d).

(** A cell that the export writes without loss: any cell but a double
    that is not [lossless]. *)
Definition exact (c : pd.cell) : Prop :=
  match c with
  | pd.Float f => lossless f
  | _ => True
  end.

(** Every cell of the table, as its column holds it, is written without
    loss. *)
Definition all_exact (d : pd.DataFrame) : Prop :=
  Forall (fun s => Forall exact (pd.values s.2)) (pd.series d).

(** A table of integers below [2^53] in magnitude, booleans, texts and
    missing values: it has no double of its own. *)
Definition cell_integral (c : pd.cell) : Prop :=
  match c with
  | pd.Int z => - 2 ^ 53 < z < 2 ^ 53
  | pd.Float _ => False
  | _ => True
  end.

Definition integral (d : pd.DataFrame) : Prop :=
  Forall (fun s => Forall cell_integral s.2) (pd.series d).


(** ** Sample data *)

Definition source_a : pd.DataFrame :=
  {| pd.index := 5;
     pd.series :=
       [("Gender", [pd.Int 0; pd.Int 1; pd.Int 0; pd.Int 1; pd.Int 1]);
        ("Age", [pd.Int 20; pd.Int 21; pd.Int 19; pd.Int 22; pd.Int 20]);
        ("Do you get irritated easily?",
         [pd.Int 3; pd.Int 1; pd.Int 5; pd.Int 2; pd.Int 4])] |}.

Definition source_b : pd.DataFrame :=
  {| pd.index := 5;
     pd.series :=
       [("anxiety_level", [pd.Int 14; pd.Int 15; pd.Int 12; pd.Int 16; pd.Int 9]);
        ("stress_level", [pd.Int 1; pd.Int 2; pd.Int 1; pd.Int 2; pd.Int 0])] |}.

Definition source_b_short : pd.DataFrame :=
  {| pd.index := 4;
     pd.series :=
       [("anxiety_level", [pd.Int 14; pd.Int 15; pd.Int 12; pd.Int 16]);
        ("stress_level", [pd.Int 1; pd.Int 2; pd.Int 1; pd.Int 2])] |}.

(** A state in which the handler object is still blank and nothing is
    printed. *)
Definition blank_state (files : gmap string pd.DataFrame) : state :=
  {| csv_files := files; unreadable := ∅; text_files := ∅; stdout := [];
     self := {| stress_path := EmptyString; stress_level_path := EmptyString;
                df := None |} |}.

Definition disk_ok : gmap string pd.DataFrame :=
  <["a.csv" := source_a]> (<["b.csv" := source_b]> ∅).

Definition disk_short : gmap string pd.DataFrame :=
  <["a.csv" := source_a]> (<["b.csv" := source_b_short]> ∅).

(** A table with a null cell and no required column, a null-free table
    without [stress_level], and a handler state holding a given table. *)
Definition nulls_and_no_columns : pd.DataFrame :=
  {| pd.index := 2;
     pd.series := [("anxiety_level", [pd.Int 14; pd.NaN]);
                   ("depression", [pd.Int 3; pd.Int 7])] |}.

Definition no_stress_level : pd.DataFrame :=
  {| pd.index := 2;
     pd.series := [("Gender", [pd.Int 0; pd.Int 1]);
                   ("Age", [pd.Int 20; pd.Int 21]);
                   ("anxiety_level", [pd.Int 14; pd.Int 15])] |}.

Definition loaded (d : pd.DataFrame) : state :=
  {| csv_files := ∅; unreadable := ∅; text_files := ∅; stdout := [];
     self := {| stress_path := "a.csv"; stress_level_path := "b.csv";
                df := Some d |} |}.

(** A second source that has an [Age] column of its own. *)
Definition source_b_age : pd.DataFrame :=
  {| pd.index := 5;
     pd.series :=
       [("Age", [pd.Int 20; pd.Int 21; pd.Int 19; pd.Int 22; pd.Int 20]);
        ("stress_level", [pd.Int 1; pd.Int 2; pd.Int 1; pd.Int 2; pd.Int 0])] |}.

Definition disk_dup : gmap string pd.DataFrame :=
  <["a.csv" := source_a]> (<["b.csv" := source_b_age]> ∅).

(** ** More vocabulary *)

(** The merge had to fill up a column: the sources differ in length and
    the shorter one has a column. *)
Definition padded (a b : pd.DataFrame) : Prop :=
  (pd.index a < pd.index b)%nat /\ pd.series a <> []
  \/ (pd.index b < pd.index a)%nat /\ pd.series b <> [].

(** A character of plain text: below 128, and no control character other
    than the line break. *)
Definition plain (c : ascii) : bool :=
  ((nat_of_ascii c <? 128) && ((32 <=? nat_of_ascii c) || (c =? json.nl)%char))%nat.

(** The state after [main] has exported [text]. *)
Definition exported (st : state) (d : pd.DataFrame) (text : string) : state :=
  {| csv_files := csv_files st; unreadable := unreadable st;
     text_files := <["stress_data.json" := text]> (text_files st);
     stdout := stdout st
               ++ ["Data validation successful.";
                   String json.nl "Successfully saved data to stress_data.json"];
     self := {| stress_path := "archive(10)/Stress_Dataset.csv";
                stress_level_path := "archive(10)/StressLevelDataset.csv";
                df := Some d |} |}.

(** ** More sample data *)

Definition on_disk (a b : pd.DataFrame) : gmap string pd.DataFrame :=
  <["archive(10)/Stress_Dataset.csv" := a]>
    (<["archive(10)/StressLevelDataset.csv" := b]> ∅).

(** Two files that hold a header and no row. *)
Definition header_only_a : pd.DataFrame :=
  {| pd.index := 0; pd.series := [("Gender", []); ("Age", [])] |}.

Definition header_only_b : pd.DataFrame :=
  {| pd.index := 0; pd.series := [("anxiety_level", []); ("stress_level", [])] |}.

(** The same table as [source_b] with every value changed. *)
Definition source_b_other : pd.DataFrame :=
  {| pd.index := 5;
     pd.series :=
       [("anxiety_level",
         [pd.Str "n/a"; pd.Int (-1); pd.Bool true; pd.Int 999; pd.Int 0]);
        ("stress_level",
         [pd.Int 99; pd.Int 99; pd.Str "high"; pd.Int (-5); pd.Bool false])] |}.

(** A frame with every feature of the model and the target. *)
Definition features_frame : pd.DataFrame :=
  {| pd.index := 2;
     pd.series :=
       ("stress_level", [pd.Int 1; pd.Int 2])
       :: ("Age", [pd.Int 20; pd.Int 21])
       :: ((fun name => (name, [pd.Int 3; pd.Int 4]))
           <$> machine_learning_analysis.features) |}.

(** A table with a text cell that holds an accented letter, a line break
    and a quotation mark. *)
Definition source_text : pd.DataFrame :=
  {| pd.index := 1;
     pd.series :=
       [("Which type of stress do you primarily experience?",
         [pd.Str (String "233"%char
                    (String "010"%char (String json.dquote "stress")))])] |}.


(** A second source that holds doubles: marks that ten decimal places
    write without loss, and one with fourteen decimal places. *)
Definition source_b_marks : pd.DataFrame :=
  {| pd.index := 5;
     pd.series :=
       [("study_hours",
         [pd.Float (binary64.of_decimal false 35 (-1));
          pd.Float (binary64.of_decimal false 275 (-2));
          pd.Float (binary64.of_decimal false 4 0);
          pd.Float (binary64.of_decimal false 1 (-1));
          pd.Float (binary64.of_decimal true 125 (-3))]);
        ("stress_level", [pd.Int 1; pd.Int 2; pd.Int 1; pd.Int 2; pd.Int 0])] |}.

Definition source_b_fine : pd.DataFrame :=
  {| pd.index := 5;
     pd.series :=
       [("study_hours",
         [pd.Float (binary64.of_decimal false 35 (-1));
          pd.Float (binary64.of_decimal false 275 (-2));
          pd.Float (binary64.of_decimal false 4 0);
          pd.Float (binary64.of_decimal false 1 (-1));
          pd.Float (binary64.of_decimal false 12345678901234 (-14))]);
        ("stress_level", [pd.Int 1; pd.Int 2; pd.Int 1; pd.Int 2; pd.Int 0])] |}.


(** A state in which nothing is loaded or printed, with the files that can
    be read and the paths that cannot. *)
Definition blank_state_with (files : gmap string pd.DataFrame)
    (broken : gmap string read_failure) : state :=
  {| csv_files := files; unreadable := broken; text_files := ∅; stdout := [];
     self := {| stress_path := EmptyString; stress_level_path := EmptyString;
                df := None |} |}.

(** The first file of the script is there and empty, the second is
    missing. *)
Definition disk_empty_file : gmap string read_failure :=
  <["archive(10)/Stress_Dataset.csv" := no_columns]> ∅.

(** ** Deciding the predicates *)

#[global] Instance well_formed_dec d : Decision (pd.well_formed d).
Proof. unfold pd.well_formed. apply _. Defined.

#[global] Instance has_null_dec d : Decision (has_null d).
Proof.
  refine (cast_if (decide (Exists (fun s => pd.NaN ∈ s.2) (pd.series d))));
    unfold has_null; rewrite Exists_exists in *; done.
Defined.

#[global] Instance has_required_columns_dec d : Decision (has_required_columns d).
Proof. unfold has_required_columns. apply _. Defined.


#[global] Instance padded_dec a b : Decision (padded a b).
Proof. unfold padded. apply _. Defined.

#[global] Instance absent_dec st path : Decision (absent st path).
Proof. unfold absent. apply _. Defined.

#[global] Instance lossless_dec f : Decision (lossless f).
Proof.
  unfold lossless.
  destruct (json.parse_number (json.encode_double f))
    as [[[| | |g| | |] [|]]|]; apply _.
Defined.

#[global] Instance exact_dec c : Decision (exact c).
Proof. destruct c; apply _. Defined.

#[global] Instance int64_range_dec z : Decision (int64_range z).
Proof. unfold int64_range. apply _. Defined.

#[global] Instance all_exact_dec d : Decision (all_exact d).
Proof. unfold all_exact. apply _. Defined.

#[global] Instance cell_integral_dec c : Decision (cell_integral c).
Proof. destruct c; apply _. Defined.

#[global] Instance integral_dec d : Decision (integral d).
Proof. unfold integral. apply _. Defined.

#[global] Instance cell_typed_dec c : Decision (cell_typed c).
Proof. destruct c; apply _. Defined.

#[global] Instance typed_dec d : Decision (typed d).
Proof. unfold typed. apply _. Defined.

(** * Properties *)

Import data_developer_utils.

(** ** JSON text: what is written is what is read *)

Section JsonText.
Import json.

Lemma skip_ws_app ws s :
  forallb is_ws ws = true -> skip_ws (ws ++ s) = skip_ws s.
Proof.
  induction ws as [|c ws IH]; [done|]. simpl.
  intros [Hc Hws]%andb_true_iff. rewrite Hc. by apply IH.
Qed.

Lemma skip_ws_pad indent level s : skip_ws (pad indent level ++ s) = skip_ws s.
Proof.
  apply skip_ws_app. unfold pad.
  induction (level * indent)%nat as [|n IH]; [done|]. exact IH.
Qed.

Lemma skip_ws_newline indent s : skip_ws (newline indent ++ s) = skip_ws s.
Proof. apply skip_ws_app. unfold newline. by destruct (indent =? 0)%nat. Qed.

Lemma skip_ws_head c s : is_ws c = false -> skip_ws (c :: s) = c :: s.
Proof. intros H. simpl. by rewrite H. Qed.

(** *** String literals *)

Lemma parse_escape_char c tail :
  parse_string_body (escape_char c ++ tail)
  = cons_fst c (parse_string_body tail).
Proof.
  destruct c as [[] [] [] [] [] [] [] []]; reflexivity.
Qed.

Lemma parse_string_body_escaped l rest :
  parse_string_body (flat_map escape_char l ++ dquote :: rest) = Some (l, rest).
Proof.
  induction l as [|c l IH]; [reflexivity|].
  cbn [flat_map]. rewrite <- app_assoc, parse_escape_char, IH. reflexivity.
Qed.

Lemma quote_app s rest :
  quote s ++ rest
  = dquote :: flat_map escape_char (list_ascii_of_string s) ++ dquote :: rest.
Proof. unfold quote. simpl. by rewrite <- app_assoc. Qed.

Lemma parse_quote s rest :
  parse_string_body (flat_map escape_char (list_ascii_of_string s)
                     ++ dquote :: rest)
  = Some (list_ascii_of_string s, rest).
Proof. apply parse_string_body_escaped. Qed.

(** *** Digits *)

Lemma read_uint_chars u rest :
  nondigit rest = true -> read_uint (chars_of_uint u ++ rest) = (u, rest).
Proof.
  intros Hs. induction u; cbn [chars_of_uint app];
    try (cbn [read_uint]; rewrite IHu; reflexivity).
  destruct rest as [|c r]; [reflexivity|]. simpl in *.
  by destruct (digit_cons c).
Qed.

Lemma parse_digits_chars u rest :
  nondigit rest = true -> canonical u = true ->
  parse_digits (chars_of_uint u ++ rest) = Some (u, rest).
Proof.
  intros Hs Hc. destruct u as [|u|u|u|u|u|u|u|u|u|u]; try discriminate;
    try (match goal with
         | |- parse_digits (chars_of_uint ?d ++ _) = _ =>
             transitivity (Some (read_uint (chars_of_uint d ++ rest)));
             [reflexivity | f_equal; by apply read_uint_chars]
         end).
  destruct u; try discriminate. reflexivity.
Qed.

Lemma to_uint_canonical p : canonical (Pos.to_uint p) = true.
Proof.
  pose proof (DecimalPos.Unsigned.to_of (Pos.to_uint p)) as H.
  rewrite DecimalPos.Unsigned.of_to in H. cbn [N.to_uint] in H.
  pose proof (DecimalPos.Unsigned.to_uint_nonzero p) as Hz.
  destruct (Pos.to_uint p) as [|u|u|u|u|u|u|u|u|u|u] eqn:E; try reflexivity.
  - by destruct (DecimalPos.Unsigned.to_uint_nonnil p).
  - exfalso. rewrite DecimalFacts.unorm_D0 in H.
    unfold Decimal.unorm in H.
    destruct (Decimal.nzhead u) as [|u0|?|?|?|?|?|?|?|?|?] eqn:En;
      try discriminate H;
      [congruence | exact (DecimalFacts.nzhead_nonzero u u0 En)].
Qed.

Lemma N_to_uint_canonical n : canonical (N.to_uint n) = true.
Proof. destruct n; [reflexivity | apply to_uint_canonical]. Qed.

Lemma to_int_canonical z :
  match Z.to_int z with
  | Decimal.Pos u | Decimal.Neg u => canonical u = true
  end.
Proof. destruct z; [reflexivity | apply to_uint_canonical ..]. Qed.

Lemma chars_of_canonical u :
  canonical u = true ->
  exists c tl, chars_of_uint u = c :: tl /\ is_digit c = true
               /\ (c =? "-")%char = false.
Proof. destruct u; try discriminate; intros _; by eexists _, _. Qed.

Lemma chars_of_nonnil u :
  u <> Decimal.Nil ->
  exists c tl, chars_of_uint u = c :: tl /\ is_digit c = true.
Proof. destruct u; try done; intros _; by eexists _, _. Qed.

Lemma is_digit_cons c : is_digit c = true -> is_Some (digit_cons c).
Proof. destruct c as [[] [] [] [] [] [] [] []]; try discriminate; by eexists. Qed.

Lemma stops_nondigit rest : stops rest = true -> nondigit rest = true.
Proof.
  destruct rest as [|c r]; [done|]. unfold stops.
  by intros [? _]%andb_true_iff.
Qed.

(** The number of digits of a number below [10^k]. *)
Lemma of_uint_acc_lower d acc :
  Zpos acc * 10 ^ Z.of_nat (Decimal.nb_digits d) <= Zpos (Pos.of_uint_acc d acc).
Proof.
  revert acc. induction d; intros acc; cbn [Decimal.nb_digits Pos.of_uint_acc];
    [lia | ..];
    rewrite Nat2Z.inj_succ, Z.pow_succ_r by lia;
    (etransitivity; [|apply IHd]); nia.
Qed.

Lemma of_uint_lower u :
  canonical u = true -> u <> Decimal.D0 Decimal.Nil ->
  10 ^ (Z.of_nat (Decimal.nb_digits u) - 1) <= Z.of_N (N.of_uint u).
Proof.
  intros Hc Hz.
  destruct u as [|u|u|u|u|u|u|u|u|u|u]; try discriminate;
    [destruct u; try discriminate; done | ..];
    cbn [Decimal.nb_digits N.of_uint Pos.of_uint];
    rewrite Nat2Z.inj_succ;
    replace (Z.succ (Z.of_nat (Decimal.nb_digits u)) - 1)
      with (Z.of_nat (Decimal.nb_digits u)) by lia;
    (etransitivity; [|apply of_uint_acc_lower]); lia.
Qed.

Lemma nb_digits_bound p k :
  Zpos p < 10 ^ Z.of_nat k -> (Decimal.nb_digits (Pos.to_uint p) <= k)%nat.
Proof.
  intros Hp.
  pose proof (of_uint_lower (Pos.to_uint p) (to_uint_canonical p)
                (DecimalPos.Unsigned.to_uint_nonzero p)) as H.
  change (N.of_uint (Pos.to_uint p)) with (Pos.of_uint (Pos.to_uint p)) in H.
  rewrite DecimalPos.Unsigned.of_to in H.
  destruct (decide (Decimal.nb_digits (Pos.to_uint p) <= k)%nat) as [|Hgt];
    [done|].
  exfalso.
  assert (10 ^ Z.of_nat k <= 10 ^ (Z.of_nat (Decimal.nb_digits (Pos.to_uint p)) - 1))
    by (apply Z.pow_le_mono_r; lia).
  lia.
Qed.


(** *** Number literals *)

Lemma lex_fraction_some f rest :
  f <> Decimal.Nil -> nondigit rest = true ->
  lex_fraction ("."%char :: chars_of_uint f ++ rest) = (Some f, rest).
Proof.
  intros Hf Hr. pose proof (read_uint_chars f rest Hr) as Hread.
  destruct (chars_of_nonnil f Hf) as (c & tl & E & Hd). rewrite E in *.
  destruct (is_digit_cons c Hd) as [k Hk].
  cbn [app lex_fraction]. change ("." =? ".")%char with true. cbv iota.
  rewrite Hk. cbn [app] in Hread. by rewrite Hread.
Qed.

Lemma lex_fraction_none rest :
  match rest with c :: _ => (c =? ".")%char = false | [] => True end ->
  lex_fraction rest = (None, rest).
Proof.
  destruct rest as [|c [|d r]]; [done | done |]. intros H.
  unfold lex_fraction. by rewrite H.
Qed.

Lemma lex_exponent_some (s : bool) u rest :
  u <> Decimal.Nil -> nondigit rest = true ->
  lex_exponent ("e"%char :: (if s then "-"%char else "+"%char)
                :: chars_of_uint u ++ rest)
  = (Some (s, u), rest).
Proof.
  intros Hu Hr. pose proof (read_uint_chars u rest Hr) as Hread.
  destruct (chars_of_nonnil u Hu) as (c & tl & E & Hd). rewrite E in *.
  destruct (is_digit_cons c Hd) as [k Hk]. cbn [app] in *.
  unfold lex_exponent. change (("e" =? "e") || ("e" =? "E"))%char with true.
  cbv iota. destruct s.
  - change (("-" =? "-") || ("-" =? "+"))%char with true. cbv iota.
    rewrite Hk, Hread. reflexivity.
  - change (("+" =? "-") || ("+" =? "+"))%char with true. cbv iota.
    rewrite Hk, Hread. reflexivity.
Qed.

Lemma lex_exponent_none rest :
  match rest with
  | c :: _ => ((c =? "e") || (c =? "E"))%char = false
  | [] => True
  end ->
  lex_exponent rest = (None, rest).
Proof.
  destruct rest as [|c [|d r]]; [done | done |]. intros H.
  unfold lex_exponent. by rewrite H.
Qed.

Lemma stops_facts rest :
  stops rest = true ->
  nondigit rest = true
  /\ match rest with c :: _ => (c =? ".")%char = false | [] => True end
  /\ match rest with
     | c :: _ => ((c =? "e") || (c =? "E"))%char = false
     | [] => True
     end.
Proof.
  destruct rest as [|c r]; [done|]. unfold stops.
  intros [Hn Hc]%andb_true_iff. apply negb_true_iff in Hc.
  apply orb_false_iff in Hc as [[Hp He]%orb_false_iff HE].
  split; [done|]. split; [done|]. by rewrite He, HE.
Qed.

(** After the integer part: the fraction, the exponent and what follows. *)
Lemma lex_tail f e rest :
  f <> Some Decimal.Nil ->
  (forall s u, e = Some (s, u) -> u <> Decimal.Nil) ->
  stops rest = true ->
  let tail :=
    match f with
    | Some f => "."%char :: chars_of_uint f
    | None => []
    end
    ++ match e with
       | Some (s, u) =>
           "e"%char :: (if s : bool then "-"%char else "+"%char) :: chars_of_uint u
       | None => []
       end
    ++ rest in
  nondigit tail = true
  /\ (let '(f', r2) := lex_fraction tail in
      let '(e', r3) := lex_exponent r2 in
      (f', e', r3)) = (f, e, rest).
Proof.
  intros Hf He Hs. destruct (stops_facts rest Hs) as (Hn & Hp & Hx).
  destruct f as [f|], e as [[s u]|]; cbn [app]; cbv zeta.
  - split; [done|].
    change ("."%char :: chars_of_uint f
            ++ "e"%char :: (if s then "-"%char else "+"%char)
               :: chars_of_uint u ++ rest)
      with ("."%char :: chars_of_uint f
            ++ ("e"%char :: (if s then "-"%char else "+"%char)
                :: chars_of_uint u ++ rest)).
    rewrite lex_fraction_some; [|congruence | done].
    rewrite lex_exponent_some; [done | by eapply He | done].
  - split; [done|]. rewrite lex_fraction_some; [|congruence | done].
    by rewrite lex_exponent_none.
  - split; [done|]. rewrite lex_fraction_none by done.
    rewrite lex_exponent_some; [done | by eapply He | done].
  - split; [done|]. rewrite lex_fraction_none by done.
    by rewrite lex_exponent_none.
Qed.

(** A literal is read back as it was written. *)
Lemma lex_number_chars l rest :
  literal_ok l -> stops rest = true ->
  lex_number (chars_of_literal l ++ rest) = Some (l, rest).
Proof.
  intros (Hc & Hf & He) Hs. destruct l as [neg i f e]. cbn [integer fraction exponent] in *.
  destruct (lex_tail f e rest Hf He Hs) as [Hn Ht]. cbv zeta in Hn, Ht.
  unfold chars_of_literal. cbn [negative integer fraction exponent].
  rewrite <- !app_assoc.
  set (tail := _ ++ _ ++ rest) in *.
  pose proof (parse_digits_chars i tail Hn Hc) as Hp.
  destruct (chars_of_canonical i Hc) as (c & tl & E & _ & Hm).
  unfold lex_number. destruct neg; cbn [app].
  - change ("-" =? "-")%char with true. cbv iota. rewrite Hp.
    cbv beta iota delta [mbind option_bind].
    destruct (lex_fraction tail) as [f' r2]. destruct (lex_exponent r2) as [e' r3].
    by injection Ht as -> -> ->.
  - rewrite E in *. cbn [app] in *. rewrite Hm, Hp.
    cbv beta iota delta [mbind option_bind].
    destruct (lex_fraction tail) as [f' r2]. destruct (lex_exponent r2) as [e' r3].
    by injection Ht as -> -> ->.
Qed.


(** *** The literals the writer makes *)

Lemma N_to_uint_nonnil n : N.to_uint n <> Decimal.Nil.
Proof. destruct n; [done | apply DecimalPos.Unsigned.to_uint_nonnil]. Qed.

Lemma zeros_nonnil k u : u <> Decimal.Nil -> zeros k u <> Decimal.Nil.
Proof. destruct k; [done | by intros _]. Qed.

Lemma fraction_digits_nonnil places frac :
  fraction_digits places frac <> Decimal.Nil.
Proof.
  unfold fraction_digits. destruct (strip_zeros 20 places frac) as [count fr].
  apply zeros_nonnil, N_to_uint_nonnil.
Qed.

Lemma fixed_literal_ok value :
  literal_ok (fixed_literal value) /\ is_Some (fraction (fixed_literal value)).
Proof.
  unfold fixed_literal. cbv zeta.
  match goal with
  | |- context [let '(_, _) := ?X in _] => destruct X as [whole frac]
  end.
  split; [|by eexists]. split; [apply N_to_uint_canonical|].
  split; [|done]. cbn [fraction]. intros [= H]. revert H.
  destruct (frac =? 0); [done | apply fraction_digits_nonnil].
Qed.

Lemma printf_literal_ok sign m e :
  literal_ok (printf_literal sign m e)
  /\ is_Some (exponent (printf_literal sign m e)).
Proof.
  unfold printf_literal. destruct (binary64.fraction m e) as [n d]. cbv zeta.
  match goal with
  | |- context [let '(_, _) := ?X in _] => destruct X as [q x]
  end.
  split; [|by eexists]. split; [apply N_to_uint_canonical|].
  cbn [fraction exponent]. split.
  - destruct (_ =? 0); [done|]. intros [= H]. by apply fraction_digits_nonnil in H.
  - intros s u [= _ <-]. destruct (Z.abs x <? 10); [done | apply N_to_uint_nonnil].
Qed.

Lemma double_literal_ok f :
  literal_ok (double_literal f)
  /\ (is_Some (fraction (double_literal f))
      \/ is_Some (exponent (double_literal f))).
Proof.
  assert (Hfixed : forall x, literal_ok (fixed_literal x)
            /\ (is_Some (fraction (fixed_literal x))
                \/ is_Some (exponent (fixed_literal x)))).
  { intros x. destruct (fixed_literal_ok x) as [H1 H2].
    split; [exact H1 | left; exact H2]. }
  destruct f as [s|s|s m e]; [apply Hfixed | apply Hfixed |].
  unfold double_literal.
  match goal with |- context [if ?b then _ else _] => destruct b end;
    [|apply Hfixed].
  destruct (printf_literal_ok s m e) as [H1 H2].
  split; [exact H1 | right; exact H2].
Qed.

Lemma number_of_double_literal f :
  number_of_literal (double_literal f) = Some (Float (reread_double f)).
Proof.
  destruct (double_literal_ok f) as [_ H]. unfold number_of_literal, reread_double.
  destruct (fraction (double_literal f)) as [fr|], (exponent (double_literal f)) as [[s u]|];
    try reflexivity.
  by destruct H as [[? [=]]|[? [=]]].
Qed.

Lemma encode_int_literal z : encode_int z = chars_of_literal (int_literal z).
Proof.
  unfold encode_int, chars_of_literal, int_literal.
  cbn [negative integer fraction exponent]. rewrite !app_nil_r.
  by destruct z.
Qed.

Lemma int_literal_ok z : literal_ok (int_literal z).
Proof. split; [apply N_to_uint_canonical | by split]. Qed.

Lemma number_of_int_literal z :
  - 10 ^ Z.of_nat max_str_digits < z < 10 ^ Z.of_nat max_str_digits ->
  number_of_literal (int_literal z) = Some (Int z).
Proof.
  intros Hz. unfold number_of_literal, int_literal.
  cbn [negative integer fraction exponent].
  assert (Hd : (Decimal.nb_digits (N.to_uint (Z.to_N (Z.abs z)))
                <= max_str_digits)%nat).
  { destruct z as [|p|p]; cbn [Z.abs Z.to_N N.to_uint];
      [exact (le_n_S 0 _ (Nat.le_0_l _)) | apply nb_digits_bound; lia ..]. }
  apply Nat.ltb_ge in Hd. rewrite Hd. do 2 f_equal.
  transitivity (Z.of_int (Z.to_int z)); [by destruct z | apply DecimalZ.of_to].
Qed.

(** A number literal starts with a digit or a minus sign. *)
Lemma literal_start l :
  literal_ok l ->
  exists c tl, chars_of_literal l = c :: tl /\ number_start c = true.
Proof.
  intros (Hc & _). unfold chars_of_literal. destruct (negative l).
  - by eexists _, _.
  - destruct (chars_of_canonical _ Hc) as (c & tl & -> & Hd & _).
    eexists _, _. split; [reflexivity|]. unfold number_start.
    by rewrite Hd, orb_true_r.
Qed.

(** A number is read back from its literal. *)
Lemma parse_number_literal l rest :
  literal_ok l -> stops rest = true ->
  parse_number (chars_of_literal l ++ rest)
  = v ← number_of_literal l; Some (v, rest).
Proof.
  intros Hl Hs. unfold parse_number. by rewrite lex_number_chars.
Qed.

(** The double that the literal of a double is read as. *)
Lemma parse_encode_double f :
  parse_number (encode_double f) = Some (Float (reread_double f), []).
Proof.
  pose proof (parse_number_literal (double_literal f) []
                (proj1 (double_literal_ok f)) eq_refl) as H.
  rewrite app_nil_r, number_of_double_literal in H. exact H.
Qed.

Lemma lossless_iff f :
  lossless f <-> binary64.is_finite f = true /\ reread_double f = f.
Proof. unfold lossless. rewrite parse_encode_double. reflexivity. Qed.

Lemma value_step_number budget items members c r :
  number_start c = true ->
  value_step budget items members (c :: r) = parse_number (c :: r).
Proof.
  destruct c as [[] [] [] [] [] [] [] []]; try discriminate; reflexivity.
Qed.


(** *** Values *)

Lemma value_nested_ind (P : value -> Prop) :
  P Null -> (forall b, P (Bool b)) -> (forall z, P (Int z)) ->
  (forall f, P (Float f)) -> (forall s, P (Str s)) ->
  (forall l, Forall P l -> P (Arr l)) ->
  (forall l, Forall (fun m => P m.2) l -> P (Obj l)) ->
  forall v, P v.
Proof.
  intros HN HB HI HF HS HA HO.
  refine (fix F v : P v :=
    match v with
    | Null => HN
    | Bool b => HB b
    | Int z => HI z
    | Float f => HF f
    | Str s => HS s
    | Arr l => HA l ((fix G l : Forall P l :=
        match l with
        | [] => Forall_nil_2 P
        | x :: l' => Forall_cons_2 P x l' (F x) (G l')
        end) l)
    | Obj l => HO l ((fix G l : Forall (fun m => P m.2) l :=
        match l with
        | [] => Forall_nil_2 _
        | m :: l' => Forall_cons_2 _ m l' (F m.2) (G l')
        end) l)
    end).
Qed.

Lemma parse_value_S f budget s :
  parse_value (S f) budget s
  = value_step budget (parse_items f (pred budget))
               (parse_members f (pred budget)) s.
Proof. reflexivity. Qed.

Lemma parse_items_S f budget s :
  parse_items (S f) budget s
  = items_step (parse_value f budget) (parse_items f budget) s.
Proof. reflexivity. Qed.

Lemma parse_members_S f budget s :
  parse_members (S f) budget s
  = members_step (parse_value f budget) (parse_members f budget) s.
Proof. reflexivity. Qed.

Lemma parse_value_ws fuel budget ws s :
  forallb is_ws ws = true ->
  parse_value fuel budget (ws ++ s) = parse_value fuel budget s.
Proof.
  intros H. destruct fuel; [done|].
  rewrite !parse_value_S. unfold value_step. by rewrite skip_ws_app.
Qed.

Lemma parse_items_ws fuel budget ws s :
  forallb is_ws ws = true ->
  parse_items fuel budget (ws ++ s) = parse_items fuel budget s.
Proof.
  intros H. destruct fuel; [done|].
  rewrite !parse_items_S. unfold items_step. by rewrite parse_value_ws.
Qed.

Lemma parse_members_ws fuel budget ws s :
  forallb is_ws ws = true ->
  parse_members fuel budget (ws ++ s) = parse_members fuel budget s.
Proof.
  intros H. destruct fuel; [done|].
  rewrite !parse_members_S. unfold members_step. by rewrite skip_ws_app.
Qed.

Lemma is_ws_pad indent level : forallb is_ws (pad indent level) = true.
Proof. unfold pad. induction (level * indent)%nat as [|n IH]; [done|]. exact IH. Qed.

Lemma is_ws_newline indent : forallb is_ws (newline indent) = true.
Proof. unfold newline. by destruct (indent =? 0)%nat. Qed.

Lemma number_start_facts c :
  number_start c = true ->
  is_ws c = false /\ (c =? "]")%char = false /\ (c =? "}")%char = false.
Proof. destruct c as [[] [] [] [] [] [] [] []]; try discriminate; done. Qed.

Lemma encode_double_start f :
  exists c tl, encode_double f = c :: tl /\ number_start c = true.
Proof. apply literal_start, double_literal_ok. Qed.

Lemma encode_int_start z :
  exists c tl, encode_int z = c :: tl /\ number_start c = true.
Proof. rewrite encode_int_literal. apply literal_start, int_literal_ok. Qed.

(** A value never starts with white space or a closing bracket. *)
Lemma encode_head indent level v :
  exists c tl, encode indent level v = c :: tl
    /\ is_ws c = false /\ (c =? "]")%char = false /\ (c =? "}")%char = false.
Proof.
  destruct v as [|[]|z|f|s|l|l]; try (by eexists _, _).
  - destruct (encode_int_start z) as (c & tl & E & Hc).
    exists c, tl. split; [done|]. by apply number_start_facts.
  - cbn [encode]. destruct (binary64.is_finite f); [|by eexists _, _].
    destruct (encode_double_start f) as (c & tl & E & Hc).
    exists c, tl. split; [done|]. by apply number_start_facts.
Qed.

Lemma stops_closing indent level c rest :
  stops [c] = true ->
  stops (newline indent ++ pad indent level ++ c :: rest) = true.
Proof.
  intros Hc. unfold newline. destruct (indent =? 0)%nat eqn:E; [|reflexivity].
  apply Nat.eqb_eq in E as ->. unfold pad. rewrite Nat.mul_0_r. exact Hc.
Qed.

Lemma skip_ws_closing indent level c rest :
  is_ws c = false ->
  skip_ws (newline indent ++ pad indent level ++ c :: rest) = c :: rest.
Proof.
  intros Hc. rewrite skip_ws_newline, skip_ws_pad. by apply skip_ws_head.
Qed.

Lemma join_cons sep p ps :
  ps <> [] -> join sep (p :: ps) = p ++ sep ++ join sep ps.
Proof.
  destruct ps as [|q ps]; [done|]. intros _.
  unfold join. cbn [flat_map]. by rewrite <- !app_assoc.
Qed.

Lemma join_singleton sep p : join sep [p] = p.
Proof. unfold join. cbn [flat_map]. by rewrite app_nil_r. Qed.

Lemma parse_items_text indent level budget l :
  l <> [] -> Forall reads_back l ->
  Forall (fun x => (depth x <= budget)%nat) l ->
  forall fuel rest,
    (sum_list (map (fun x => S (size x)) l) <= fuel)%nat ->
    parse_items fuel budget
      (join (","%char :: newline indent)
            (map (fun x => pad indent (S level) ++ encode indent (S level) x) l)
       ++ newline indent ++ pad indent level ++ "]"%char :: rest)
    = Some (map reread l, rest).
Proof.
  induction l as [|x l IH]; [done|]. intros _ Hall Hdepth fuel rest Hfuel.
  apply Forall_cons in Hall as [Hx Hl]. apply Forall_cons in Hdepth as [Dx Dl].
  change (S (size x) + sum_list (map (fun x => S (size x)) l) <= fuel)%nat
    in Hfuel.
  destruct fuel as [|f]; [lia|]. rewrite parse_items_S. unfold items_step.
  destruct l as [|y l].
  - cbn [map]. rewrite join_singleton, <- app_assoc, parse_value_ws
      by apply is_ws_pad.
    rewrite (Hx indent (S level) f budget); [|simpl in Hfuel; lia | done
      | by apply stops_closing].
    cbv beta iota delta [mbind option_bind].
    by rewrite skip_ws_closing.
  - rewrite map_cons, join_cons, <- !app_assoc, parse_value_ws
      by (done || apply is_ws_pad).
    cbn [app].
    rewrite (Hx indent (S level) f budget); [|lia | done | reflexivity].
    cbv beta iota delta [mbind option_bind].
    cbn [skip_ws is_ws Ascii.eqb Bool.eqb orb]. cbv beta iota.
    rewrite parse_items_ws by apply is_ws_newline.
    rewrite IH; [done | done | done | done | lia].
Qed.

Lemma members_step_member element members k X :
  members_step element members (quote k ++ ":"%char :: X)
  = '(v, r3) ← element X;
    match skip_ws r3 with
    | [] => None
    | c3 :: r4 =>
        if (c3 =? ",")%char then
          '(ms, r5) ← members r4; Some ((k, v) :: ms, r5)
        else if (c3 =? "}")%char then Some ([(k, v)], r4)
        else None
    end.
Proof.
  unfold members_step. rewrite quote_app.
  change (skip_ws (dquote :: ?s)) with (dquote :: s). cbv beta iota.
  rewrite Ascii.eqb_refl, parse_quote.
  cbv beta iota delta [mbind option_bind].
  change (skip_ws (":"%char :: X)) with (":"%char :: X). cbv beta iota.
  rewrite Ascii.eqb_refl, string_of_list_ascii_of_string. reflexivity.
Qed.

Lemma parse_members_text indent level budget l :
  l <> [] -> Forall (fun m => reads_back m.2) l ->
  Forall (fun m => (depth m.2 <= budget)%nat) l ->
  forall fuel rest,
    (sum_list (map (fun m => S (size m.2)) l) <= fuel)%nat ->
    parse_members fuel budget
      (join (","%char :: newline indent)
            (map (fun m => pad indent (S level) ++ quote m.1
                           ++ ":"%char :: encode indent (S level) m.2) l)
       ++ newline indent ++ pad indent level ++ "}"%char :: rest)
    = Some (map (fun m => (m.1, reread m.2)) l, rest).
Proof.
  induction l as [|[k v] l IH]; [done|]. intros _ Hall Hdepth fuel rest Hfuel.
  apply Forall_cons in Hall as [Hx Hl]. cbn [fst snd] in Hx.
  apply Forall_cons in Hdepth as [Dx Dl]. cbn [fst snd] in Dx.
  change (S (size v) + sum_list (map (fun m => S (size m.2)) l) <= fuel)%nat
    in Hfuel.
  destruct fuel as [|f]; [lia|].
  destruct l as [|y l].
  - cbn [map fst snd]. rewrite join_singleton, <- !app_assoc, parse_members_ws
      by apply is_ws_pad.
    rewrite parse_members_S. cbn [app]. rewrite members_step_member.
    rewrite (Hx indent (S level) f budget); [|simpl in Hfuel; lia | done
      | by apply stops_closing].
    cbv beta iota delta [mbind option_bind].
    by rewrite skip_ws_closing.
  - rewrite map_cons, join_cons, <- !app_assoc, parse_members_ws
      by (done || apply is_ws_pad).
    rewrite parse_members_S. cbn [app fst snd]. rewrite members_step_member.
    rewrite (Hx indent (S level) f budget); [|lia | done | reflexivity].
    cbv beta iota delta [mbind option_bind].
    cbn [skip_ws is_ws Ascii.eqb Bool.eqb orb]. cbv beta iota.
    rewrite parse_members_ws by apply is_ws_newline.
    rewrite IH; [done | done | done | done | lia].
Qed.

Lemma value_step_string budget items members X :
  value_step budget items members (dquote :: X)
  = '(t, r') ← parse_string_body X; Some (Str (string_of_list_ascii t), r').
Proof. reflexivity. Qed.

Lemma value_step_array budget items members X :
  value_step (S budget) items members ("["%char :: X)
  = match skip_ws X with
    | [] => None
    | c' :: r' =>
        if (c' =? "]")%char then Some (Arr [], r')
        else '(l, r'') ← items X; Some (Arr l, r'')
    end.
Proof. reflexivity. Qed.

Lemma value_step_object budget items members X :
  value_step (S budget) items members ("{"%char :: X)
  = match skip_ws X with
    | [] => None
    | c' :: r' =>
        if (c' =? "}")%char then Some (Obj [], r')
        else '(l, r'') ← members X; Some (Obj l, r'')
    end.
Proof. reflexivity. Qed.

Lemma skip_ws_join indent level sep body ps R c tl :
  body = c :: tl -> is_ws c = false ->
  skip_ws (newline indent ++ join sep ((pad indent level ++ body) :: ps) ++ R)
  = c :: tl ++ flat_map (fun q => sep ++ q) ps ++ R.
Proof.
  intros -> Hc. rewrite skip_ws_newline. unfold join.
  rewrite <- !app_assoc, skip_ws_pad. cbn [app]. by apply skip_ws_head.
Qed.

Lemma max_list_le {A} (f : A -> nat) l b :
  (foldr Nat.max 0%nat (map f l) <= b)%nat -> Forall (fun x => (f x <= b)%nat) l.
Proof.
  induction l as [|x l IH]; [by constructor|]. cbn [map foldr]. intros H.
  constructor; [lia | apply IH; lia].
Qed.

Lemma and_list_Forall {A} (P : A -> Prop) l :
  foldr and True (map P l) -> Forall P l.
Proof.
  induction l as [|x l IH]; [by constructor|]. cbn [map foldr].
  intros [Hx Hl]. constructor; [done | by apply IH].
Qed.

(** Every value is read back from its text, up to the rounding of its
    doubles, when its integers are short enough and the nesting is allowed. *)
Lemma encode_reads_back v : short_integers v -> reads_back v.
Proof.
  induction v as [|b|z|x|s|l IH|l IH] using value_nested_ind;
    intros Hshort indent level fuel budget rest Hfuel Hdepth Hs;
    (destruct fuel as [|f]; [simpl in Hfuel; lia|]); rewrite parse_value_S.
  - reflexivity.
  - by destruct b.
  - cbn [encode reread]. destruct (encode_int_start z) as (c & tl & E & Hc).
    pose proof (parse_number_literal (int_literal z) rest (int_literal_ok z) Hs)
      as Hp.
    rewrite <- encode_int_literal, number_of_int_literal in Hp by exact Hshort.
    rewrite E in *. cbn [app] in *. by rewrite value_step_number, Hp.
  - cbn [encode reread]. destruct (binary64.is_finite x); [|reflexivity].
    destruct (encode_double_start x) as (c & tl & E & Hc).
    pose proof (parse_number_literal (double_literal x) rest
                  (proj1 (double_literal_ok x)) Hs) as Hp.
    rewrite number_of_double_literal in Hp.
    change (chars_of_literal (double_literal x)) with (encode_double x) in Hp.
    rewrite E in *. cbn [app] in *. by rewrite value_step_number, Hp.
  - cbn [encode]. rewrite quote_app, value_step_string, parse_quote.
    cbv beta iota delta [mbind option_bind].
    by rewrite string_of_list_ascii_of_string.
  - cbn [depth] in Hdepth. destruct budget as [|budget]; [lia|].
    apply le_S_n, max_list_le in Hdepth.
    assert (Hall : Forall reads_back l).
    { apply and_list_Forall in Hshort. apply Forall_forall. intros y Hy.
      rewrite Forall_forall in IH, Hshort. exact (IH y Hy (Hshort y Hy)). }
    cbn [encode app reread pred]. rewrite <- !app_assoc. cbn [app].
    rewrite value_step_array.
    destruct l as [|x l].
    + cbn [map join app]. by rewrite skip_ws_newline, skip_ws_closing.
    + destruct (encode_head indent (S level) x) as (c & tl & E & Hw & Hb & _).
      match goal with
      | |- context [skip_ws ?X] =>
          let H := fresh in
          eassert (H : skip_ws X = _) by exact (skip_ws_join _ _ _ _ _ _ _ _ E Hw);
          rewrite H; clear H
      end.
      rewrite Hb, parse_items_ws by apply is_ws_newline.
      rewrite parse_items_text; [done | done | done | done |].
      cbn [size] in Hfuel. lia.
  - cbn [depth] in Hdepth. destruct budget as [|budget]; [lia|].
    apply le_S_n, (max_list_le (fun m : string * value => depth m.2)) in Hdepth.
    assert (Hall : Forall (fun m : string * value => reads_back m.2) l).
    { apply (and_list_Forall (fun m : string * value => short_integers m.2))
        in Hshort.
      apply Forall_forall. intros y Hy.
      rewrite Forall_forall in IH, Hshort. exact (IH y Hy (Hshort y Hy)). }
    cbn [encode app reread pred]. rewrite <- !app_assoc. cbn [app].
    rewrite value_step_object.
    destruct l as [|x l].
    + cbn [map join app]. by rewrite skip_ws_newline, skip_ws_closing.
    + match goal with
      | |- context [skip_ws ?X] =>
          let H := fresh in
          eassert (H : skip_ws X = _)
            by exact (skip_ws_join _ _ _ _ _ _ dquote _ (quote_app _ _) eq_refl);
          rewrite H; clear H
      end.
      change (dquote =? "}")%char with false. cbv beta iota.
      rewrite parse_members_ws by apply is_ws_newline.
      rewrite parse_members_text; [done | done | done | done |].
      cbn [size] in Hfuel. lia.
Qed.

(** *** Fuel: the length of the text is enough *)

Lemma flat_map_length_bound {A} (f : A -> list ascii) (w : A -> nat) sep l :
  (1 <= length sep)%nat ->
  Forall (fun x => (w x <= length (f x))%nat) l ->
  (sum_list (map (fun x => S (w x)) l)
   <= length (flat_map (fun q => sep ++ q) (map f l)))%nat.
Proof.
  intros Hsep. induction 1 as [|x l Hx Hl IH]; [done|].
  cbn [map flat_map]. rewrite !length_app.
  change (sum_list (S (w x) :: map (fun x => S (w x)) l))
    with (S (w x) + sum_list (map (fun x => S (w x)) l))%nat.
  lia.
Qed.

Lemma join_length_bound {A} (f : A -> list ascii) (w : A -> nat) sep l :
  (1 <= length sep)%nat ->
  Forall (fun x => (w x <= length (f x))%nat) l ->
  (sum_list (map (fun x => S (w x)) l) <= S (length (join sep (map f l))))%nat.
Proof.
  intros Hsep Hall. destruct Hall as [|x l Hx Hl]; [simpl; lia|].
  pose proof (flat_map_length_bound f w sep l Hsep Hl).
  cbn [map join]. rewrite length_app.
  change (sum_list (S (w x) :: map (fun x => S (w x)) l))
    with (S (w x) + sum_list (map (fun x => S (w x)) l))%nat.
  lia.
Qed.

Lemma size_le_length indent level v :
  (size v <= length (encode indent level v))%nat.
Proof.
  revert level.
  induction v as [|b|z|x|s|l IH|l IH] using value_nested_ind; intros level.
  - simpl. lia.
  - destruct b; simpl; lia.
  - cbn [size encode]. destruct (encode_int_start z) as (c & tl & -> & _).
    simpl. lia.
  - cbn [size encode]. destruct (binary64.is_finite x); [|simpl; lia].
    destruct (encode_double_start x) as (c & tl & -> & _). simpl. lia.
  - cbn [size encode]. unfold quote. simpl. lia.
  - cbn [size encode]. cbn [length]. rewrite !length_app. cbn [length].
    pose proof (join_length_bound
      (fun x => pad indent (S level) ++ encode indent (S level) x) size
      (","%char :: newline indent) l) as H.
    cbn [length] in H. specialize (H ltac:(lia)).
    assert (Hall : Forall (fun x => (size x <= length
      (pad indent (S level) ++ encode indent (S level) x))%nat) l).
    { eapply Forall_impl; [exact IH|]. intros x Hx. cbv beta.
      rewrite length_app. specialize (Hx (S level)). lia. }
    specialize (H Hall). lia.
  - cbn [size encode]. cbn [length]. rewrite !length_app. cbn [length].
    pose proof (join_length_bound
      (fun m : string * value => pad indent (S level) ++ quote m.1
                 ++ ":"%char :: encode indent (S level) m.2)
      (fun m => size m.2)
      (","%char :: newline indent) l) as H.
    cbn [length] in H. specialize (H ltac:(lia)).
    assert (Hall : Forall (fun m : string * value => (size m.2 <= length
      (pad indent (S level) ++ quote m.1
       ++ ":"%char :: encode indent (S level) m.2))%nat) l).
    { eapply Forall_impl; [exact IH|]. intros m Hm. cbv beta in *.
      rewrite !length_app. cbn [length]. specialize (Hm (S level)). lia. }
    specialize (H Hall). lia.
Qed.

(** What [dumps] writes, [loads] reads back, at every indent. *)
Lemma loads_dumps indent v :
  short_integers v -> (depth v <= max_nesting)%nat ->
  loads (dumps indent v) = Some (reread v).
Proof.
  intros Hshort Hdepth.
  unfold loads, dumps. rewrite list_ascii_of_string_of_list_ascii.
  pose proof (encode_reads_back v Hshort indent 0%nat
                (S (length (encode indent 0 v))) max_nesting []) as H.
  rewrite app_nil_r in H. rewrite H; [done | | done | done].
  pose proof (size_le_length indent 0 v). lia.
Qed.


(** *** The parser and the writer on small inputs *)

Example loads_numbers :
  loads "[1, -20,0 ]" = Some (Arr [Int 1; Int (-20); Int 0]).
Proof. reflexivity. Qed.

Example loads_leading_zero : loads "[01]" = None.
Proof. reflexivity. Qed.

Example loads_doubles :
  loads "[14.0, 1.5e-1, 1E400, -0.0]"
  = Some (Arr [Float (binary64.of_Z 14);
               Float (binary64.of_decimal false 15 (-2));
               Float (binary64.Infinity false);
               Float (binary64.Zero true)]).
Proof. vm_compute. reflexivity. Qed.

Example loads_point_without_digit : loads "1." = None.
Proof. reflexivity. Qed.

Example loads_trailing_comma : loads "[1,]" = None.
Proof. reflexivity. Qed.

Example loads_nesting_limit :
  loads (string_of_list_ascii (replicate 994 "["%char ++ replicate 994 "]"%char))
  <> None
  /\ loads (string_of_list_ascii
              (replicate 995 "["%char ++ replicate 995 "]"%char))
     = None.
Proof. split; vm_compute; [discriminate | reflexivity]. Qed.

Example loads_digit_limit :
  loads (string_of_list_ascii (replicate 4300 "1"%char)) <> None
  /\ loads (string_of_list_ascii (replicate 4301 "1"%char)) = None.
Proof. split; vm_compute; [discriminate | reflexivity]. Qed.

Example encode_doubles :
  map (fun f => string_of_list_ascii (encode_double f))
      [binary64.of_Z 14;
       binary64.of_decimal false 1 (-1);
       binary64.of_ratio true 1 3;
       binary64.of_decimal false 12345678901234 (-14);
       binary64.of_decimal false 1 17;
       binary64.of_decimal false 15 (-17);
       binary64.Zero true]
  = ["14.0"; "0.1"; "-0.3333333333"; "0.123456789"; "1e+17"; "1.5e-16";
     "0.0"]%string.
Proof. vm_compute. reflexivity. Qed.

Example encode_one_record :
  encode 4 0 (Arr [Obj [("a", Int 1); ("b/c", Null)]])
  = list_ascii_of_string "[" ++ [nl]
    ++ list_ascii_of_string "    {" ++ [nl]
    ++ list_ascii_of_string "        " ++ [dquote; "a"%char; dquote]
    ++ list_ascii_of_string ":1," ++ [nl]
    ++ list_ascii_of_string "        "
    ++ [dquote; "b"%char; bslash; "/"%char; "c"%char; dquote]
    ++ list_ascii_of_string ":null" ++ [nl]
    ++ list_ascii_of_string "    }" ++ [nl]
    ++ list_ascii_of_string "]".
Proof. reflexivity. Qed.

Example encode_no_indent :
  encode 0 0 (Arr [Arr [Int 1; Int 2]; Arr []])
  = list_ascii_of_string "[[1,2],[]]".
Proof. reflexivity. Qed.

End JsonText.
(** ** Running the methods *)

(** Unfolding the plumbing of [M]. *)
Ltac run_M :=
  unfold get_self, read_csv, raise, try_except_FileNotFoundError,
    mbind, M_bind, mret, M_ret.

(** ** Positional merge *)

Lemma reindex_length n s : length (pd.reindex n s) = n.
Proof.
  unfold pd.reindex. rewrite length_app, length_take, length_replicate. lia.
Qed.

Lemma reindex_pad n s :
  (length s <= n)%nat ->
  pd.reindex n s = s ++ replicate (n - length s) pd.NaN.
Proof. intros H. unfold pd.reindex. by rewrite take_ge. Qed.

Lemma reindex_series n d k :
  pd.well_formed d -> n = (pd.index d + k)%nat ->
  prod_map id (pd.reindex n) <$> pd.series d
  = prod_map id (fun s => s ++ replicate k pd.NaN) <$> pd.series d.
Proof.
  intros Hwf ->. apply Forall_fmap_ext_1.
  eapply Forall_impl; [exact Hwf|]. intros [c s] Hs. simpl in *.
  unfold prod_map. simpl. f_equal.
  rewrite reindex_pad by lia. do 2 f_equal. lia.
Qed.

Lemma rename_shape d mapper : pd.shape (pd.rename d mapper) = pd.shape d.
Proof.
  unfold pd.shape, pd.rename. cbn [pd.index pd.series]. by rewrite length_fmap.
Qed.

Section Merge.

Variables a b : pd.DataFrame.

Lemma concat_axis1_index :
  pd.index (pd.concat_axis1 a b) = Nat.max (pd.index a) (pd.index b).
Proof. reflexivity. Qed.

Lemma concat_axis1_columns :
  pd.columns (pd.concat_axis1 a b) = pd.columns a ++ pd.columns b.
Proof.
  unfold pd.columns, pd.concat_axis1. simpl.
  rewrite fmap_app, <- !list_fmap_compose.
  f_equal; apply list_fmap_ext; by intros ? [].
Qed.

(** A merge is well formed whatever its inputs are. *)
Lemma concat_axis1_well_formed : pd.well_formed (pd.concat_axis1 a b).
Proof.
  unfold pd.well_formed, pd.concat_axis1. simpl.
  apply Forall_app; split; apply Forall_fmap, Forall_forall;
    intros [c s] _; simpl; apply reindex_length.
Qed.

Lemma load_both_present st :
  csv_files st !! stress_path (self st) = Some a ->
  csv_files st !! stress_level_path (self st) = Some b ->
  _load_and_merge_data st = (Ret (Some (pd.concat_axis1 a b)), st).
Proof.
  intros Hp Hq. unfold _load_and_merge_data. run_M. by rewrite Hp, Hq.
Qed.

Hypothesis Ha : pd.well_formed a.
Hypothesis Hb : pd.well_formed b.

(** The cells of a merge: every column keeps its cells, and the columns of
    the shorter frame are filled up with [NaN]. *)
Lemma concat_axis1_series :
  pd.series (pd.concat_axis1 a b)
  = (prod_map id (fun s => s ++ replicate (pd.index b - pd.index a) pd.NaN)
       <$> pd.series a)
    ++ (prod_map id (fun s => s ++ replicate (pd.index a - pd.index b) pd.NaN)
       <$> pd.series b).
Proof.
  unfold pd.concat_axis1. simpl. f_equal.
  - apply reindex_series; [done | lia].
  - apply reindex_series; [done | lia].
Qed.

Lemma concat_axis1_same_index :
  pd.index a = pd.index b ->
  pd.concat_axis1 a b
  = {| pd.index := pd.index a; pd.series := pd.series a ++ pd.series b |}.
Proof.
  intros E. unfold pd.concat_axis1 at 1.
  f_equal; [lia|].
  change (pd.series (pd.concat_axis1 a b) = pd.series a ++ pd.series b).
  rewrite concat_axis1_series.
  rewrite E, Nat.sub_diag. simpl.
  f_equal; (etransitivity; [|apply list_fmap_id]); apply list_fmap_ext;
    intros ? [c s]; unfold prod_map; simpl; by rewrite app_nil_r.
Qed.

End Merge.

(** C1. For two well-formed tables with the same number of rows, the
    positional merge has that number of rows and as many columns as both
    inputs together, and holds the columns of the first followed by those of
    the second, cell for cell.  This is the table [_load_and_merge_data]
    returns, and the shape is the one [merged_df] would have by lines 126
    to 154 of the interactive script, a file that Python rejects before it
    runs any of them. *)
Theorem merge_shape a b :
  pd.well_formed a -> pd.well_formed b -> pd.index a = pd.index b ->
  pd.shape (pd.concat_axis1 a b)
    = (pd.index a, (length (pd.series a) + length (pd.series b))%nat)
  /\ pd.series (pd.concat_axis1 a b) = pd.series a ++ pd.series b
  /\ (forall st,
        csv_files st !! stress_path (self st) = Some a ->
        csv_files st !! stress_level_path (self st) = Some b ->
        _load_and_merge_data st = (Ret (Some (pd.concat_axis1 a b)), st))
  /\ pd.shape (interactive_data_analysis.merged_df a b)
    = (pd.index a, (length (pd.series a) + length (pd.series b))%nat).
Proof.
  intros Ha Hb E.
  assert (Hsh : pd.shape (pd.concat_axis1 a b)
    = (pd.index a, (length (pd.series a) + length (pd.series b))%nat)).
  { rewrite (concat_axis1_same_index a b Ha Hb E).
    unfold pd.shape. cbn [pd.index pd.series]. by rewrite length_app. }
  split; [exact Hsh|]. split.
  { by rewrite (concat_axis1_same_index a b Ha Hb E). }
  split; [apply load_both_present|].
  unfold interactive_data_analysis.merged_df. by rewrite rename_shape.
Qed.

Lemma merge_shape_witness :
  pd.shape (pd.concat_axis1 source_a source_b) = (5%nat, 5%nat).
Proof.
  apply (merge_shape source_a source_b); [| | reflexivity];
    apply (bool_decide_unpack _); vm_compute; reflexivity.
Defined.

Section Validation.

Lemma count_true_pos (l : list pd.cell) :
  0 < Z.of_nat (length (filter (fun b => b = true) (map pd.isna l)))
  <-> pd.NaN ∈ l.
Proof.
  induction l as [|c l IH].
  - simpl. split; [intros; exfalso; lia | by intros ?%elem_of_nil].
  - rewrite elem_of_cons.
    destruct c; cbn [map pd.isna];
      [rewrite filter_cons_True by done | rewrite filter_cons_False by done ..].
    + split; [by left | simpl; lia].
    + rewrite IH. split; [by right | by intros [|]].
    + rewrite IH. split; [by right | by intros [|]].
    + rewrite IH. split; [by right | by intros [|]].
    + rewrite IH. split; [by right | by intros [|]].
Qed.

Lemma sum_frame_cons c (l : list bool) f :
  pd.sum_series (pd.sum_frame ((c, l) :: f))
  = Z.of_nat (length (filter (fun b => b = true) l))
    + pd.sum_series (pd.sum_frame f).
Proof. reflexivity. Qed.

Lemma sum_frame_nonneg f : 0 <= pd.sum_series (pd.sum_frame f).
Proof.
  induction f as [|[c l] f IH]; [done|]. rewrite sum_frame_cons. lia.
Qed.

(** The null count is positive exactly when some cell is null. *)
Lemma null_count_pos d :
  0 < pd.sum_series (pd.sum_frame (pd.isnull d)) <-> has_null d.
Proof.
  unfold has_null, pd.isnull. induction (pd.series d) as [|[c l] ss IH].
  - split; [intros H; vm_compute in H; discriminate
           | by intros (? & ?%elem_of_nil & _)].
  - pose proof (sum_frame_nonneg (prod_map id (map pd.isna) <$> ss)) as Hnn.
    pose proof (count_true_pos l) as Hl.
    rewrite fmap_cons. unfold prod_map at 1. cbn [fst snd id].
    rewrite sum_frame_cons. split.
    + intros Hpos.
      destruct (decide (0 < Z.of_nat
        (length (filter (fun b => b = true) (map pd.isna l))))) as [Hc|Hc].
      * exists (c, l). split; [by left | by apply Hl].
      * destruct IH as [IH _]. destruct IH as (s & Hs & Hn); [lia|].
        exists s. split; [by right | done].
    + intros (s & Hs & Hn). apply elem_of_cons in Hs as [->|Hs].
      * apply Hl in Hn. lia.
      * destruct IH as [_ IH]. specialize (IH (ex_intro _ s (conj Hs Hn))). lia.
Qed.

Lemma required_columns_check d :
  forallb (fun col => bool_decide (col ∈ pd.columns d))
          ["Gender"; "Age"; "stress_level"] = true
  <-> has_required_columns d.
Proof.
  unfold has_required_columns. simpl.
  rewrite !andb_true_iff, !bool_decide_eq_true. tauto.
Qed.

(** What [validate_data] does on a loaded table, check by check. *)
Lemma validate_data_run st d :
  df (self st) = Some d ->
  validate_data st =
    if decide (has_null d) then
      (Ret false, printed st "Error: Missing values found in the data.")
    else if decide (has_required_columns d) then
      (Ret true, printed st "Data validation successful.")
    else
      (Ret false, printed st "Error: Missing expected columns.").
Proof.
  intros Hdf.
  unfold validate_data, print, printed. run_M.
  rewrite Hdf.
  destruct (decide (has_null d)) as [Hn|Hn].
  - apply null_count_pos, Z.ltb_lt in Hn. by rewrite Hn.
  - rewrite <- null_count_pos, <- Z.ltb_nlt in Hn. rewrite Hn.
    destruct (decide (has_required_columns d)) as [Hc|Hc].
    + apply required_columns_check in Hc. by rewrite Hc.
    + rewrite <- required_columns_check in Hc.
      apply not_true_is_false in Hc. by rewrite Hc.
Qed.

Lemma validate_data_unloaded st :
  df (self st) = None -> validate_data st = (Ret false, st).
Proof.
  intros Hdf. unfold validate_data. run_M. by rewrite Hdf.
Qed.

Lemma get_data_as_json_unloaded st :
  df (self st) = None -> get_data_as_json st = (Ret None, st).
Proof.
  intros Hdf. unfold get_data_as_json. run_M. by rewrite Hdf.
Qed.

End Validation.

(** C2. On a loaded table the null check comes first: a table with a null
    cell makes [validate_data] return [False] after printing the
    missing-values message and nothing else, whatever its columns are. *)
Theorem validate_null_check_first st d :
  df (self st) = Some d -> has_null d ->
  validate_data st
  = (Ret false, printed st "Error: Missing values found in the data.").
Proof.
  intros Hdf Hn. rewrite (validate_data_run st d Hdf).
  by destruct (decide (has_null d)).
Qed.

Lemma validate_null_check_first_witness :
  ~ has_required_columns nulls_and_no_columns /\
  validate_data (loaded nulls_and_no_columns)
  = (Ret false, printed (loaded nulls_and_no_columns)
                        "Error: Missing values found in the data.").
Proof.
  split.
  - apply (bool_decide_unpack _). vm_compute. reflexivity.
  - apply (validate_null_check_first (loaded nulls_and_no_columns)
                                     nulls_and_no_columns).
    + reflexivity.
    + apply (bool_decide_unpack _). vm_compute. reflexivity.
Defined.

(** C3. A loaded table without null cells that lacks a required column
    makes [validate_data] return [False] after printing the
    missing-columns message. *)
Theorem validate_missing_columns st d :
  df (self st) = Some d -> ~ has_null d -> ~ has_required_columns d ->
  validate_data st
  = (Ret false, printed st "Error: Missing expected columns.").
Proof.
  intros Hdf Hn Hc. rewrite (validate_data_run st d Hdf).
  destruct (decide (has_null d)); [done|].
  by destruct (decide (has_required_columns d)).
Qed.

Lemma validate_missing_columns_witness :
  validate_data (loaded no_stress_level)
  = (Ret false, printed (loaded no_stress_level)
                        "Error: Missing expected columns.").
Proof.
  apply (validate_missing_columns (loaded no_stress_level) no_stress_level).
  - reflexivity.
  - apply (bool_decide_unpack _). vm_compute. reflexivity.
  - apply (bool_decide_unpack _). vm_compute. reflexivity.
Defined.

(** C4. On a loaded table [validate_data] returns [True] exactly when no
    cell is null and every required column is present. *)
Theorem validate_true_iff st d :
  df (self st) = Some d ->
  fst (validate_data st) = Ret true
  <-> ~ has_null d /\ has_required_columns d.
Proof.
  intros Hdf. rewrite (validate_data_run st d Hdf).
  destruct (decide (has_null d)); [simpl; split; [done | tauto]|].
  destruct (decide (has_required_columns d)); simpl;
    (split; [try done; tauto | try done; tauto]).
Qed.

Lemma validate_true_iff_witness :
  fst (validate_data (loaded (pd.concat_axis1 source_a source_b))) = Ret true
  <-> ~ has_null (pd.concat_axis1 source_a source_b)
      /\ has_required_columns (pd.concat_axis1 source_a source_b).
Proof.
  apply (validate_true_iff (loaded (pd.concat_axis1 source_a source_b))).
  reflexivity.
Defined.

(** C9. The required columns are the three names written in
    [validate_data], which takes no argument to change them: a loaded
    table without null cells validates whenever its columns include
    [Gender], [Age] and [stress_level], whatever other columns it has, and
    only then. *)
Theorem validate_fixed_columns st d :
  df (self st) = Some d -> ~ has_null d ->
  (["Gender"; "Age"; "stress_level"] ⊆ pd.columns d ->
   validate_data st = (Ret true, printed st "Data validation successful."))
  /\ (fst (validate_data st) = Ret true ->
      ["Gender"; "Age"; "stress_level"] ⊆ pd.columns d).
Proof.
  intros Hdf Hn. rewrite (validate_data_run st d Hdf).
  destruct (decide (has_null d)); [done|].
  destruct (decide (has_required_columns d)) as [Hc|Hc]; split.
  - done.
  - intros _ c Hin. destruct Hc as (Hg & Ha & Hs).
    repeat (apply elem_of_cons in Hin as [->|Hin]; [done|]).
    by apply elem_of_nil in Hin.
  - intros Hsub. exfalso. apply Hc. unfold has_required_columns.
    repeat split; apply Hsub; set_solver.
  - done.
Qed.

Lemma validate_fixed_columns_witness :
  pd.columns (pd.concat_axis1 source_a source_b)
  = ["Gender"; "Age"; "Do you get irritated easily?";
     "anxiety_level"; "stress_level"] /\
  validate_data (loaded (pd.concat_axis1 source_a source_b))
  = (Ret true, printed (loaded (pd.concat_axis1 source_a source_b))
                       "Data validation successful.").
Proof.
  split; [reflexivity|].
  refine (proj1 (validate_fixed_columns
                   (loaded (pd.concat_axis1 source_a source_b))
                   (pd.concat_axis1 source_a source_b) _ _) _).
  - reflexivity.
  - apply (bool_decide_unpack _). vm_compute. reflexivity.
  - apply (bool_decide_unpack _). vm_compute. reflexivity.
Defined.

(** ** Files that are missing, files that cannot be read *)

Section Missing.

Lemma load_first_missing st :
  absent st (stress_path (self st)) ->
  _load_and_merge_data st
  = (Ret None,
     printed st "Make sure the CSV files are in the correct directory.").
Proof.
  intros [Hp Hu]. unfold _load_and_merge_data. run_M. by rewrite Hp, Hu.
Qed.

Lemma load_second_missing st a :
  csv_files st !! stress_path (self st) = Some a ->
  absent st (stress_level_path (self st)) ->
  _load_and_merge_data st
  = (Ret None,
     printed st "Make sure the CSV files are in the correct directory.").
Proof.
  intros Hp [Hq Hu]. unfold _load_and_merge_data. run_M.
  rewrite Hp. cbv beta iota. by rewrite Hq, Hu.
Qed.

(** A file that is there and cannot be read: its exception is not the one
    the handler catches. *)
Lemma load_first_unreadable st f :
  csv_files st !! stress_path (self st) = None ->
  unreadable st !! stress_path (self st) = Some f ->
  _load_and_merge_data st = (Raise (raised f), st).
Proof.
  intros Hp Hu. unfold _load_and_merge_data. run_M. rewrite Hp, Hu.
  by destruct f.
Qed.

Lemma load_second_unreadable st a f :
  csv_files st !! stress_path (self st) = Some a ->
  csv_files st !! stress_level_path (self st) = None ->
  unreadable st !! stress_level_path (self st) = Some f ->
  _load_and_merge_data st = (Raise (raised f), st).
Proof.
  intros Hp Hq Hu. unfold _load_and_merge_data. run_M.
  rewrite Hp. cbv beta iota. rewrite Hq, Hu. by destruct f.
Qed.

Lemma init_run p q st :
  __init__ p q st
  = let st1 := {| csv_files := csv_files st; unreadable := unreadable st;
                  text_files := text_files st; stdout := stdout st;
                  self := {| stress_path := p; stress_level_path := q;
                             df := df (self st) |} |} in
    match _load_and_merge_data st1 with
    | (Ret merged, st2) =>
        (Ret tt, {| csv_files := csv_files st2; unreadable := unreadable st2;
                    text_files := text_files st2; stdout := stdout st2;
                    self := {| stress_path := stress_path (self st2);
                               stress_level_path := stress_level_path (self st2);
                               df := merged |} |})
    | (Raise e, st2) => (Raise e, st2)
    end.
Proof. reflexivity. Qed.

Lemma init_missing st p q :
  absent st p \/ is_Some (csv_files st !! p) /\ absent st q ->
  __init__ p q st = (Ret tt, not_loaded st p q).
Proof.
  intros H. rewrite init_run. cbv zeta.
  destruct H as [H|[[a Ha] H]];
    [rewrite load_first_missing by done
    | rewrite (load_second_missing _ a) by done];
    reflexivity.
Qed.

Lemma init_unreadable st p q f :
  csv_files st !! p = None /\ unreadable st !! p = Some f
  \/ is_Some (csv_files st !! p)
     /\ csv_files st !! q = None /\ unreadable st !! q = Some f ->
  __init__ p q st = (Raise (raised f), paths_set st p q).
Proof.
  intros H. rewrite init_run. cbv zeta.
  destruct H as [[Hp Hu]|[[a Ha] [Hq Hu]]];
    [rewrite (load_first_unreadable _ f) by done
    | rewrite (load_second_unreadable _ a f) by done];
    reflexivity.
Qed.

(** The script itself: with a file missing it prints the diagnostic, skips
    the export and ends normally, writing nothing. *)
Lemma main_missing_file st :
  absent st "archive(10)/Stress_Dataset.csv"
  \/ is_Some (csv_files st !! "archive(10)/Stress_Dataset.csv")
     /\ absent st "archive(10)/StressLevelDataset.csv" ->
  main st = (Ret tt, not_loaded st "archive(10)/Stress_Dataset.csv"
                                "archive(10)/StressLevelDataset.csv").
Proof.
  intros H. unfold main.
  unfold mbind at 1, M_bind at 1. rewrite (init_missing st _ _ H).
  unfold mbind, M_bind. by rewrite validate_data_unloaded.
Qed.

(** With a file that cannot be read it ends with the exception of
    [read_csv], having printed and written nothing. *)
Lemma main_unreadable_file st f :
  csv_files st !! "archive(10)/Stress_Dataset.csv" = None
  /\ unreadable st !! "archive(10)/Stress_Dataset.csv" = Some f
  \/ is_Some (csv_files st !! "archive(10)/Stress_Dataset.csv")
     /\ csv_files st !! "archive(10)/StressLevelDataset.csv" = None
     /\ unreadable st !! "archive(10)/StressLevelDataset.csv" = Some f ->
  main st = (Raise (raised f),
             paths_set st "archive(10)/Stress_Dataset.csv"
                       "archive(10)/StressLevelDataset.csv").
Proof.
  intros H. unfold main.
  unfold mbind at 1, M_bind at 1. by rewrite (init_unreadable st _ _ f H).
Qed.

End Missing.




(** C10. [validate_data] and [get_data_as_json] only read the handler: in
    every state, the handler object, and with it the stored table, is the
    same after the call as before, and so are the files. *)
Theorem validate_and_export_read_only st :
  self (snd (validate_data st)) = self st
  /\ csv_files (snd (validate_data st)) = csv_files st
  /\ text_files (snd (validate_data st)) = text_files st
  /\ snd (get_data_as_json st) = st.
Proof.
  destruct (df (self st)) as [d|] eqn:Hdf.
  - rewrite (validate_data_run st d Hdf).
    assert (snd (get_data_as_json st) = st) as ->.
    { unfold get_data_as_json. run_M.
      rewrite Hdf. by destruct (pd.to_json d 4). }
    destruct (decide (has_null d)); [done|].
    by destruct (decide (has_required_columns d)).
  - by rewrite validate_data_unloaded, get_data_as_json_unloaded.
Qed.

(** C6, as stated, fails: a 5-row source and a 4-row source are merged
    into a 5-row table without any failure. *)
Lemma merge_mismatch_counterexample :
  pd.index source_a = 5%nat /\ pd.index source_b_short = 4%nat /\
  exists st d,
    __init__ "a.csv" "b.csv" (blank_state disk_short) = (Ret tt, st)
    /\ df (self st) = Some d
    /\ pd.shape d = (5%nat, 5%nat).
Proof.
  split; [reflexivity|]. split; [reflexivity|].
  eexists _, _. split; [vm_compute; reflexivity|]. split; reflexivity.
Qed.

(** C6, amended. Two well-formed sources with different row counts are
    merged without failure: the table has as many rows as the longer
    source, the columns of both under their own names, and the columns of
    the shorter source are filled up with nulls.  When the shorter source
    has a column, the merged table therefore has a null cell, and
    validation reports missing values. *)
Theorem merge_mismatch_pads a b :
  pd.well_formed a -> pd.well_formed b -> pd.index a <> pd.index b ->
  (forall st,
      csv_files st !! stress_path (self st) = Some a ->
      csv_files st !! stress_level_path (self st) = Some b ->
      _load_and_merge_data st = (Ret (Some (pd.concat_axis1 a b)), st))
  /\ pd.index (pd.concat_axis1 a b) = Nat.max (pd.index a) (pd.index b)
  /\ pd.well_formed (pd.concat_axis1 a b)
  /\ pd.columns (pd.concat_axis1 a b) = pd.columns a ++ pd.columns b
  /\ pd.series (pd.concat_axis1 a b)
     = (prod_map id (fun s => s ++ replicate (pd.index b - pd.index a) pd.NaN)
          <$> pd.series a)
       ++ (prod_map id (fun s => s ++ replicate (pd.index a - pd.index b) pd.NaN)
          <$> pd.series b)
  /\ (((pd.index a < pd.index b)%nat /\ pd.series a <> []
       \/ (pd.index b < pd.index a)%nat /\ pd.series b <> []) ->
      has_null (pd.concat_axis1 a b)
      /\ forall st, df (self st) = Some (pd.concat_axis1 a b) ->
           validate_data st
           = (Ret false, printed st "Error: Missing values found in the data.")).
Proof.
  intros Ha Hb Hne.
  split; [apply load_both_present|].
  split; [apply concat_axis1_index|].
  split; [apply concat_axis1_well_formed|].
  split; [apply concat_axis1_columns|].
  split; [by apply concat_axis1_series|].
  intros Hshort.
  assert (Hnull : has_null (pd.concat_axis1 a b)).
  { unfold has_null. rewrite concat_axis1_series by done.
    destruct Hshort as [[Hlt Hs]|[Hlt Hs]].
    - destruct (pd.series a) as [|[c s] ss]; [done|].
      exists (c, s ++ replicate (pd.index b - pd.index a) pd.NaN).
      split; [by left|]. cbn [snd].
      apply elem_of_app. right.
      destruct (pd.index b - pd.index a)%nat eqn:E; [lia|]. by left.
    - destruct (pd.series b) as [|[c s] ss]; [done|].
      exists (c, s ++ replicate (pd.index a - pd.index b) pd.NaN).
      split; [apply elem_of_app; right; by left|]. cbn [snd].
      apply elem_of_app. right.
      destruct (pd.index a - pd.index b)%nat eqn:E; [lia|]. by left. }
  split; [done|].
  intros st Hdf. rewrite (validate_data_run st _ Hdf).
  by destruct (decide (has_null _)).
Qed.

Lemma merge_mismatch_pads_witness :
  pd.series (pd.concat_axis1 source_a source_b_short)
  = pd.series source_a
    ++ [("anxiety_level", [pd.Int 14; pd.Int 15; pd.Int 12; pd.Int 16; pd.NaN]);
        ("stress_level", [pd.Int 1; pd.Int 2; pd.Int 1; pd.Int 2; pd.NaN])].
Proof.
  refine (proj1 (proj2 (proj2 (proj2 (proj2
    (merge_mismatch_pads source_a source_b_short _ _ _)))))).
  - apply (bool_decide_unpack _). vm_compute. reflexivity.
  - apply (bool_decide_unpack _). vm_compute. reflexivity.
  - apply (bool_decide_unpack _). vm_compute. reflexivity.
Defined.

(** ** Integers held as doubles

    An integer of a [float64] column is written with a point and a zero
    and read back as the same double, as long as it is below [2^53] in
    magnitude. *)

Section Integers.
Import SpecFloat.

Lemma digits2_pos_spec p :
  2 ^ (Zpos (digits2_pos p) - 1) <= Zpos p < 2 ^ Zpos (digits2_pos p).
Proof.
  induction p as [p IH|p IH|]; cbn [digits2_pos];
    rewrite ?Pos2Z.inj_succ.
  - replace (Z.succ (Zpos (digits2_pos p)) - 1) with (Z.succ (Zpos (digits2_pos p) - 1)) by lia.
    rewrite !Z.pow_succ_r by lia. lia.
  - replace (Z.succ (Zpos (digits2_pos p)) - 1) with (Z.succ (Zpos (digits2_pos p) - 1)) by lia.
    rewrite !Z.pow_succ_r by lia. lia.
  - done.
Qed.

Lemma digits2_pos_unique p n :
  2 ^ (n - 1) <= Zpos p < 2 ^ n -> Zpos (digits2_pos p) = n.
Proof.
  intros [Hlo Hhi]. pose proof (digits2_pos_spec p) as [Dlo Dhi].
  set (d := Zpos (digits2_pos p)) in *.
  assert (0 < n).
  { destruct (Z.lt_trichotomy n 0) as [Hn|[->|Hn]];
      [rewrite (Z.pow_neg_r 2 n) in Hhi by lia; lia | simpl in Hhi; lia | done]. }
  destruct (Z.lt_trichotomy d n) as [H1|[H1|H1]]; [|done|].
  - assert (2 ^ d <= 2 ^ (n - 1)) by (apply Z.pow_le_mono_r; lia). lia.
  - assert (2 ^ n <= 2 ^ (d - 1)) by (apply Z.pow_le_mono_r; lia). lia.
Qed.

Lemma iter_xO p n : Zpos (Pos.iter xO p n) = Zpos p * 2 ^ Zpos n.
Proof.
  induction n as [|n IH] using Pos.peano_ind.
  - cbn. lia.
  - rewrite Pos.iter_succ, Pos2Z.inj_succ, Z.pow_succ_r by lia.
    rewrite Pos2Z.inj_xO, IH. lia.
Qed.


Lemma round_aux_canonical s m e :
  digits2_pos m = 53%positive -> (-1074) <= e <= 971 ->
  binary_round_aux 53 1024 s (Zpos m) e loc_Exact = S754_finite s m e.
Proof.
  intros Hd He.
  assert (Hf : fexp 53 1024 (Zpos (digits2_pos m) + e) - e = 0)
    by (rewrite Hd; unfold fexp, emin; lia).
  unfold binary_round_aux, shr_fexp. cbn [Zdigits2 shr_record_of_loc].
  rewrite Hf. cbn [shr shr_m loc_of_shr_record round_nearest_even Zdigits2 shr_record_of_loc].
  rewrite Hf. cbn [shr shr_m].
  assert ((e <=? 1024 - 53) = true) as -> by (apply Z.leb_le; lia). reflexivity.
Qed.

(** The normal form of a positive integer below [2^53]. *)
Lemma shl_align_spec p e e' :
  e' <= e ->
  let '(m, x) := shl_align p e e' in
  Zpos m = Zpos p * 2 ^ (e - e') /\ x = e'.
Proof.
  intros H. unfold shl_align.
  destruct (e' - e) as [|k|k] eqn:E.
  - assert (e' = e) as -> by lia. rewrite Z.sub_diag. split; [cbn; lia | done].
  - lia.
  - rewrite iter_xO. split; [|done]. f_equal. f_equal. lia.
Qed.

Lemma digits2_pos_scaled p m k :
  0 <= k -> Zpos m = Zpos p * 2 ^ k ->
  Zpos (digits2_pos m) = Zpos (digits2_pos p) + k.
Proof.
  intros Hk Hm. apply digits2_pos_unique. rewrite Hm.
  pose proof (digits2_pos_spec p) as [Dlo Dhi].
  replace (Zpos (digits2_pos p) + k - 1) with (Zpos (digits2_pos p) - 1 + k) by lia.
  assert (0 <= Zpos (digits2_pos p) - 1) by lia.
  rewrite !Z.pow_add_r by lia.
  assert (0 < 2 ^ k) by (apply Z.pow_pos_nonneg; lia).
  split; [apply Z.mul_le_mono_nonneg_r; lia | apply Z.mul_lt_mono_pos_r; lia].
Qed.

Lemma of_Z_pos p :
  Zpos (digits2_pos p) <= 53 ->
  exists m,
    binary_round 53 1024 false p 0
    = S754_finite false m (Zpos (digits2_pos p) - 53)
    /\ binary_round 53 1024 true p 0
       = S754_finite true m (Zpos (digits2_pos p) - 53)
    /\ Zpos m = Zpos p * 2 ^ (53 - Zpos (digits2_pos p))
    /\ digits2_pos m = 53%positive.
Proof.
  intros Hd. pose proof (Pos2Z.is_pos (digits2_pos p)).
  unfold binary_round.
  assert (Hf : fexp 53 1024 (Zpos (digits2_pos p) + 0) = Zpos (digits2_pos p) - 53)
    by (unfold fexp, emin; lia).
  rewrite Hf.
  pose proof (shl_align_spec p 0 (Zpos (digits2_pos p) - 53) ltac:(lia)) as Hs.
  destruct (shl_align p 0 (Zpos (digits2_pos p) - 53)) as [m e].
  destruct Hs as [Hm ->].
  replace (0 - (Zpos (digits2_pos p) - 53)) with (53 - Zpos (digits2_pos p))
    in Hm by lia.
  assert (Hdm : digits2_pos m = 53%positive).
  { apply Pos2Z.inj. rewrite (digits2_pos_scaled p m (53 - Zpos (digits2_pos p))); lia. }
  exists m.
  rewrite !round_aux_canonical by (done || lia). done.
Qed.

(** One bit too many, and that bit is zero. *)
Lemma round_aux_even s m e :
  digits2_pos m = 53%positive -> (-1073) <= e <= 971 ->
  binary_round_aux 53 1024 s (Zpos m~0) (e - 1) loc_Exact = S754_finite s m e.
Proof.
  intros Hd He.
  assert (Hf : fexp 53 1024 (Zpos (digits2_pos m~0) + (e - 1)) - (e - 1) = 1)
    by (cbn [digits2_pos]; rewrite Hd; unfold fexp, emin; lia).
  assert (Hg : fexp 53 1024 (Zpos (digits2_pos m) + (e - 1 + 1)) - (e - 1 + 1) = 0)
    by (rewrite Hd; unfold fexp, emin; lia).
  unfold binary_round_aux, shr_fexp. cbn [Zdigits2 shr_record_of_loc].
  rewrite Hf.
  cbn [shr iter_pos shr_1 orb shr_m loc_of_shr_record round_nearest_even
       Zdigits2 shr_record_of_loc].
  rewrite Hg. cbn [shr shr_m].
  replace (e - 1 + 1) with e by lia.
  assert ((e <=? 1024 - 53) = true) as -> by (apply Z.leb_le; lia). reflexivity.
Qed.

Lemma digits2_pos_tenfold p :
  Zpos (digits2_pos (10 * p)) = Zpos (digits2_pos p) + 3
  \/ Zpos (digits2_pos (10 * p)) = Zpos (digits2_pos p) + 4.
Proof.
  pose proof (digits2_pos_spec p) as [Dlo Dhi].
  pose proof (Pos2Z.is_pos (digits2_pos p)).
  set (d := Zpos (digits2_pos p)) in *.
  assert (E1 : 2 ^ (d + 2) = 8 * 2 ^ (d - 1)).
  { replace (d + 2) with (d - 1 + 3) by lia. rewrite Z.pow_add_r by lia. lia. }
  assert (E2 : 2 ^ (d + 3) = 8 * 2 ^ d) by (rewrite Z.pow_add_r by lia; lia).
  assert (E3 : 2 ^ (d + 4) = 16 * 2 ^ d) by (rewrite Z.pow_add_r by lia; lia).
  destruct (decide (Zpos (10 * p) < 2 ^ (d + 3))) as [Hlt|Hge].
  - left. apply digits2_pos_unique.
    replace (d + 3 - 1) with (d + 2) by lia. lia.
  - right. apply digits2_pos_unique.
    replace (d + 4 - 1) with (d + 3) by lia. lia.
Qed.

Lemma div_eucl_exact q b : 0 < b -> Z.div_eucl (q * b) b = (q, 0).
Proof.
  intros Hb. pose proof (Z.div_mul q b ltac:(lia)) as Hq.
  pose proof (Z.mod_mul q b ltac:(lia)) as Hr.
  unfold Z.div, Z.modulo in *. destruct (Z.div_eucl (q * b) b). by subst.
Qed.

(** The double nearest to [10 p / 10] is the double nearest to [p]. *)
Lemma of_ratio_tenfold s p m :
  Zpos (digits2_pos p) <= 53 ->
  Zpos m = Zpos p * 2 ^ (53 - Zpos (digits2_pos p)) ->
  digits2_pos m = 53%positive ->
  SFdiv 53 1024 (S754_finite s (10 * p) 0) (S754_finite false 10 0)
  = S754_finite s m (Zpos (digits2_pos p) - 53).
Proof.
  intros Hd Hm Hdm. pose proof (Pos2Z.is_pos (digits2_pos p)).
  set (d := Zpos (digits2_pos p)) in *.
  unfold SFdiv, SFdiv_core_binary. cbn [Zdigits2 xorb].
  change (Zpos (digits2_pos 10)) with 4.
  rewrite xorb_false_r. rewrite !Z.add_0_r, Z.sub_0_r.
  change (0 - 0) with 0.
  destruct (digits2_pos_tenfold p) as [E|E]; fold d in E; rewrite E.
  - (* one bit too many *)
    assert (Hf : Z.min (fexp 53 1024 (d + 3 - 4)) 0 = d - 54)
      by (unfold fexp, emin; lia).
    rewrite Hf. replace (0 - (d - 54)) with (54 - d) by lia.
    assert (Hq : match 54 - d with
                 | Zpos _ => Z.shiftl (Zpos (10 * p)) (54 - d)
                 | 0 => Zpos (10 * p)
                 | Zneg _ => 0
                 end = Zpos m~0 * 10).
    { destruct (54 - d) as [|k|k] eqn:Ek; [lia| |lia].
      rewrite Z.shiftl_mul_pow2 by lia. rewrite <- Ek.
      replace (54 - d) with (Z.succ (53 - d)) by lia.
      rewrite Z.pow_succ_r by lia. rewrite (Pos2Z.inj_xO m), Hm, Pos2Z.inj_mul. lia. }
    rewrite Hq, div_eucl_exact by lia.
    change (new_location 10 0) with loc_Exact.
    replace (d - 54) with (d - 53 - 1) by lia.
    apply round_aux_even; [done | lia].
  - assert (Hf : Z.min (fexp 53 1024 (d + 4 - 4)) 0 = d - 53)
      by (unfold fexp, emin; lia).
    rewrite Hf. replace (0 - (d - 53)) with (53 - d) by lia.
    assert (Hq : match 53 - d with
                 | Zpos _ => Z.shiftl (Zpos (10 * p)) (53 - d)
                 | 0 => Zpos (10 * p)
                 | Zneg _ => 0
                 end = Zpos m * 10).
    { rewrite Hm, Pos2Z.inj_mul.
      destruct (53 - d) as [|k|k] eqn:Ek; [lia| |lia].
      rewrite Z.shiftl_mul_pow2 by lia. lia. }
    rewrite Hq, div_eucl_exact by lia.
    change (new_location 10 0) with loc_Exact.
    apply round_aux_canonical; [done | lia].
Qed.


Lemma thres_max_eq : json.thres_max = binary64.Finite false 5000000000000000 1.
Proof. vm_compute. reflexivity. Qed.

Lemma thres_min_exponent :
  exists m, json.thres_min = binary64.Finite false m (-102).
Proof. eexists. vm_compute. reflexivity. Qed.

Lemma trunc_scaled p m d :
  0 < d <= 53 -> Zpos m = Zpos p * 2 ^ (53 - d) ->
  binary64.trunc (binary64.Finite false m (d - 53)) = Zpos p.
Proof.
  intros Hd Hm. unfold binary64.trunc. cbn [cond_Zopp].
  destruct (d - 53) as [|k|k] eqn:Ek; [|lia|].
  - rewrite Z.shiftl_0_r, Hm. replace (53 - d) with 0 by lia. cbn. lia.
  - rewrite Z.shiftr_div_pow2 by lia. rewrite Hm.
    replace (53 - d) with (Zpos k) by lia.
    apply Z.div_mul. apply Z.pow_nonzero; lia.
Qed.

Lemma sub_self m e :
  binary64.sub (binary64.Finite false m e) (binary64.Finite false m e)
  = binary64.Zero false.
Proof.
  unfold binary64.sub, binary64.to_spec, SFsub. by rewrite Z.sub_diag.
Qed.

(** The literal of an integer below [2^53] held as a double: its digits,
    the point and a zero. *)
Lemma double_literal_integer s p :
  Zpos (digits2_pos p) <= 53 ->
  exists m,
    binary64.of_Z (if s : bool then Zneg p else Zpos p)
    = binary64.Finite s m (Zpos (digits2_pos p) - 53)
    /\ json.double_literal (binary64.Finite s m (Zpos (digits2_pos p) - 53))
       = {| json.negative := s; json.integer := Pos.to_uint p;
            json.fraction := Some (Decimal.D0 Decimal.Nil);
            json.exponent := None |}
    /\ binary64.of_ratio s (10 * p) 10
       = binary64.Finite s m (Zpos (digits2_pos p) - 53).
Proof.
  intros Hd. destruct (of_Z_pos p Hd) as (m & Hpos & Hneg & Hm & Hdm).
  pose proof (Pos2Z.is_pos (digits2_pos p)).
  set (d := Zpos (digits2_pos p)) in *.
  exists m. split; [|split].
  - unfold binary64.of_Z, binary_normalize, binary64.prec, binary64.emax.
    destruct s; by rewrite ?Hpos, ?Hneg.
  - assert (Hof : binary64.of_Z (Zpos p) = binary64.Finite false m (d - 53))
      by (unfold binary64.of_Z, binary_normalize, binary64.prec, binary64.emax;
          by rewrite Hpos).
    unfold json.double_literal.
    assert (binary64.ltb json.thres_max (binary64.Finite false m (d - 53)) = false) as ->.
    { rewrite thres_max_eq. unfold binary64.ltb, binary64.to_spec, SFltb, SFcompare.
      destruct (Z.compare_spec 1 (d - 53)); [lia | lia | done]. }
    assert (binary64.ltb (binary64.Finite false m (d - 53)) json.thres_min = false) as ->.
    { destruct thres_min_exponent as [m' ->].
      unfold binary64.ltb, binary64.to_spec, SFltb, SFcompare.
      destruct (Z.compare_spec (d - 53) (-102)); [lia | lia | done]. }
    cbn [orb]. unfold json.fixed_literal. cbv zeta.
    assert (binary64.ltb (binary64.Finite s m (d - 53)) (binary64.Zero false) = s)
      as -> by (by destruct s).
    assert ((if s then binary64.opp (binary64.Finite s m (d - 53))
             else binary64.Finite s m (d - 53))
            = binary64.Finite false m (d - 53)) as -> by (by destruct s).
    rewrite (trunc_scaled p m d) by (done || lia).
    rewrite Hof, sub_self.
    assert (binary64.mul (binary64.Zero false)
              (binary64.of_Z (10 ^ json.double_precision))
            = binary64.Zero false) as -> by (vm_compute; reflexivity).
    change (binary64.trunc (binary64.Zero false)) with 0.
    assert (binary64.sub (binary64.Zero false) (binary64.of_Z 0)
            = binary64.Zero false) as -> by (vm_compute; reflexivity).
    assert (binary64.ltb (binary64.of_decimal false 5 (-1)) (binary64.Zero false)
            = false) as -> by (vm_compute; reflexivity).
    assert (binary64.eqb (binary64.Zero false) (binary64.of_decimal false 5 (-1))
            = false) as -> by (vm_compute; reflexivity).
    reflexivity.
  - unfold binary64.of_ratio, binary64.prec, binary64.emax.
    by rewrite (of_ratio_tenfold s p m Hd Hm Hdm).
Qed.


Lemma of_uint_app_zero u :
  N.of_uint (Decimal.app u (Decimal.D0 Decimal.Nil)) = (10 * N.of_uint u)%N.
Proof.
  change N.of_uint with Pos.of_uint.
  rewrite !DecimalPos.Unsigned.of_uint_alt.
  assert (Decimal.rev (Decimal.app u (Decimal.D0 Decimal.Nil))
          = Decimal.D0 (Decimal.rev u)) as ->.
  { apply DecimalFacts.to_list_inj.
    cbn [DecimalFacts.to_list].
    rewrite !DecimalFacts.rev_spec, DecimalFacts.app_spec, List.rev_app_distr.
    reflexivity. }
  reflexivity.
Qed.

Lemma small_digits p : Zpos p < 2 ^ 53 -> Zpos (digits2_pos p) <= 53.
Proof.
  intros Hp. pose proof (digits2_pos_spec p) as [Dlo _].
  destruct (decide (Zpos (digits2_pos p) <= 53)) as [|Hgt]; [done|].
  assert (2 ^ 53 <= 2 ^ (Zpos (digits2_pos p) - 1))
    by (apply Z.pow_le_mono_r; lia).
  lia.
Qed.

(** An integer below [2^53] in magnitude, held as a double, is written
    without loss. *)
Lemma integer_lossless z :
  - 2 ^ 53 < z < 2 ^ 53 -> lossless (binary64.of_Z z).
Proof.
  intros Hz.
  assert (Hcase : z = 0 \/ exists (s : bool) p,
            z = (if s then Zneg p else Zpos p) /\ Zpos p < 2 ^ 53).
  { destruct z as [|p|p]; [by left | right; exists false, p | right; exists true, p];
      split; (done || lia). }
  apply lossless_iff.
  destruct Hcase as [->|(s & p & -> & Hp)].
  { split; vm_compute; reflexivity. }
  destruct (double_literal_integer s p (small_digits p Hp)) as (m & -> & Hl & Hr).
  split; [done|]. unfold reread_double. rewrite Hl.
  cbn [json.negative json.integer json.fraction json.exponent default].
  rewrite of_uint_app_zero.
  change (N.of_uint (Pos.to_uint p)) with (Pos.of_uint (Pos.to_uint p)).
  rewrite DecimalPos.Unsigned.of_to. exact Hr.
Qed.

End Integers.

(** ** Export *)

Section JsonExport.

Lemma get_data_as_json_run st d :
  df (self st) = Some d ->
  get_data_as_json st
  = match pd.to_json d 4 with
    | Ret text => (Ret (Some text), st)
    | Raise e => (Raise e, st)
    end.
Proof.
  intros Hdf. unfold get_data_as_json. run_M. rewrite Hdf. by destruct (pd.to_json d 4).
Qed.







Lemma record_keys d i :
  match pd.record d i with
  | json.Obj members => members.*1 = pd.columns d
  | _ => False
  end.
Proof.
  unfold pd.record, pd.columns. rewrite <- list_fmap_compose.
  by apply list_fmap_ext.
Qed.



Lemma rename_columns d mapper :
  pd.columns (pd.rename d mapper)
  = (fun c => default c (mapper !! c)) <$> pd.columns d.
Proof.
  unfold pd.columns, pd.rename. cbn [pd.series].
  rewrite <- !list_fmap_compose. by apply list_fmap_ext.
Qed.

Lemma init_both_present st p q a b :
  csv_files st !! p = Some a -> csv_files st !! q = Some b ->
  __init__ p q st = (Ret tt, loaded_from st p q (pd.concat_axis1 a b)).
Proof.
  intros Ha Hb. rewrite init_run. cbv zeta.
  by rewrite (load_both_present a b).
Qed.

(** *** What is read back from an export *)

Lemma int64_short z :
  int64_range z ->
  - 10 ^ Z.of_nat json.max_str_digits < z < 10 ^ Z.of_nat json.max_str_digits.
Proof.
  unfold int64_range. intros [Hlo Hhi].
  assert (Hb : 2 ^ 64 < 10 ^ Z.of_nat json.max_str_digits)
    by (apply Z.ltb_lt; vm_compute; reflexivity).
  set (bound := 10 ^ Z.of_nat json.max_str_digits) in *.
  change (2 ^ 64) with 18446744073709551616 in *.
  change (2 ^ 63) with 9223372036854775808 in *.
  lia.
Qed.

Lemma astype_typed t c :
  cell_typed c -> short_integers (pd.to_json_value (pd.astype t c)).
Proof.
  destruct c as [|z| | |]; try (by destruct t). intros Hz.
  destruct t; try (by apply int64_short). done.
Qed.

Lemma values_typed cells i :
  Forall cell_typed cells ->
  short_integers (pd.to_json_value (default pd.NaN (pd.values cells !! i))).
Proof.
  intros Hall. unfold pd.values. rewrite list_lookup_fmap.
  destruct (cells !! i) as [c|] eqn:E; [|done]. cbn [fmap option_fmap option_map default].
  apply astype_typed. rewrite Forall_forall in Hall.
  apply Hall. by eapply list_elem_of_lookup_2.
Qed.

Lemma record_short d i : typed d -> short_integers (pd.record d i).
Proof.
  intros Ht. unfold pd.record. cbn [short_integers].
  unfold typed in Ht. induction Ht as [|s ss Hs _ IH]; [done|].
  cbn [fmap list_fmap map foldr fst snd]. split; [by apply values_typed | exact IH].
Qed.

Lemma records_short d : typed d -> short_integers (pd.records d).
Proof.
  intros Ht. unfold pd.records. cbn [short_integers].
  induction (seq 0 (pd.index d)) as [|i l IH]; [done|].
  cbn [fmap list_fmap map foldr]. split; [by apply record_short | exact IH].
Qed.

Lemma scalar_depth c : depth (pd.to_json_value c) = 0%nat.
Proof. by destruct c. Qed.

Lemma max_list_bound {A} (f : A -> nat) l b :
  Forall (fun x => (f x <= b)%nat) l -> (foldr Nat.max 0%nat (map f l) <= b)%nat.
Proof. induction 1 as [|x l Hx _ IH]; cbn [map foldr]; lia. Qed.

Lemma record_depth d i : (depth (pd.record d i) <= 1)%nat.
Proof.
  unfold pd.record. cbn [depth]. apply le_n_S, max_list_bound.
  apply Forall_fmap, Forall_forall. intros s _. cbn. by rewrite scalar_depth.
Qed.

Lemma records_depth d : (depth (pd.records d) <= json.max_nesting)%nat.
Proof.
  transitivity 2%nat; [|apply Nat.leb_le; reflexivity].
  unfold pd.records. cbn [depth]. apply le_n_S, max_list_bound.
  apply Forall_fmap, Forall_forall. intros i _. apply record_depth.
Qed.

(** The text of a typed table is read back as its records, up to the
    rounding of its doubles. *)
Lemma loads_records d :
  typed d -> json.loads (json.dumps 4 (pd.records d)) = Some (reread (pd.records d)).
Proof.
  intros Ht. apply loads_dumps; [by apply records_short | apply records_depth].
Qed.

Lemma reread_scalar c :
  exact c -> reread (pd.to_json_value c) = pd.to_json_value c.
Proof.
  destruct c as [| |f| |]; try done. intros [Hf Hr]%lossless_iff. cbn.
  by rewrite Hf, Hr.
Qed.

Lemma reread_record d i :
  all_exact d -> reread (pd.record d i) = pd.record d i.
Proof.
  intros Hall. unfold pd.record. cbn [reread]. f_equal.
  unfold all_exact in Hall. induction Hall as [|s ss Hs _ IH]; [done|].
  cbn [fmap list_fmap map fst snd]. f_equal; [|exact IH]. f_equal.
  apply reread_scalar.
  destruct (pd.values s.2 !! i) as [c|] eqn:E; [|done]. cbn.
  rewrite Forall_forall in Hs. apply Hs. by eapply list_elem_of_lookup_2.
Qed.

Lemma reread_records d :
  all_exact d -> reread (pd.records d) = pd.records d.
Proof.
  intros Hall. unfold pd.records. cbn [reread]. f_equal.
  induction (seq 0 (pd.index d)) as [|i l IH]; [done|].
  cbn [fmap list_fmap map]. f_equal; [by apply reread_record | exact IH].
Qed.

Lemma Forall_concat (P : pd.cell -> Prop) a b :
  P pd.NaN ->
  Forall (fun s => Forall P s.2) (pd.series a) ->
  Forall (fun s => Forall P s.2) (pd.series b) ->
  Forall (fun s => Forall P s.2) (pd.series (pd.concat_axis1 a b)).
Proof.
  intros HP Ha Hb. unfold pd.concat_axis1. cbn [pd.series].
  assert (H : forall n ss,
    Forall (fun s : string * list pd.cell => Forall P s.2) ss ->
    Forall (fun s : string * list pd.cell => Forall P s.2)
           (prod_map id (pd.reindex n) <$> ss)).
  { intros n ss Hss. apply Forall_fmap. eapply Forall_impl; [exact Hss|].
    intros [c cells] Hc. cbn in *. unfold pd.reindex. apply Forall_app. split.
    - by apply Forall_take.
    - apply Forall_forall. by intros x ->%elem_of_replicate_inv. }
  apply Forall_app. split; by apply H.
Qed.


Lemma integral_concat a b :
  integral a -> integral b -> integral (pd.concat_axis1 a b).
Proof. by apply Forall_concat. Qed.

Lemma integral_typed d : integral d -> typed d.
Proof.
  intros H. eapply Forall_impl; [exact H|]. intros s Hs.
  eapply Forall_impl; [exact Hs|]. intros [|z|f| |]; try done.
  unfold cell_integral, cell_typed, int64_range.
  change (2 ^ 53) with 9007199254740992. change (2 ^ 63) with 9223372036854775808.
  change (2 ^ 64) with 18446744073709551616. lia.
Qed.

(** A table without doubles of its own is written without loss: what its
    [float64] columns hold are integers below [2^53]. *)
Lemma integral_exact d : integral d -> all_exact d.
Proof.
  intros H. eapply Forall_impl; [exact H|]. intros s Hs.
  unfold pd.values. apply Forall_fmap.
  eapply Forall_impl; [exact Hs|].
  intros [|z|f| |] Hc; try (by destruct (pd.dtype_of s.2)).
  destruct (pd.dtype_of s.2); try done. cbn. by apply integer_lossless.
Qed.

(** *** The export on the sample tables *)

(** The columns of the shorter source are filled up, and with that become
    [float64] columns: their integers are written as doubles. *)
Example export_padded_lines :
  pd.series (pd.concat_axis1 source_a source_b_short) !! 3%nat
  = Some ("anxiety_level",
          [pd.Int 14; pd.Int 15; pd.Int 12; pd.Int 16; pd.NaN])
  /\ pd.dtype_of [pd.Int 14; pd.Int 15; pd.Int 12; pd.Int 16; pd.NaN]
     = pd.float64
  /\ member_line 0 ("anxiety_level",
                    [pd.Int 14; pd.Int 15; pd.Int 12; pd.Int 16; pd.NaN])
     = list_ascii_of_string "        " ++ json.quote "anxiety_level"
       ++ list_ascii_of_string ":14.0"
  /\ member_line 4 ("anxiety_level",
                    [pd.Int 14; pd.Int 15; pd.Int 12; pd.Int 16; pd.NaN])
     = list_ascii_of_string "        " ++ json.quote "anxiety_level"
       ++ list_ascii_of_string ":null"
  /\ member_line 0 ("Age", [pd.Int 20; pd.Int 21; pd.Int 19; pd.Int 22; pd.Int 20])
     = list_ascii_of_string "        " ++ json.quote "Age"
       ++ list_ascii_of_string ":20".
Proof. repeat split; vm_compute; reflexivity. Qed.

(** Integers held as doubles and doubles with few decimal places are
    written without loss; a double with fourteen decimal places is not. *)
Example sample_tables_exact :
  all_exact (pd.concat_axis1 source_a source_b_short)
  /\ all_exact (pd.concat_axis1 source_a source_b_marks)
  /\ ~ all_exact (pd.concat_axis1 source_a source_b_fine).
Proof.
  split; [|split]; apply (bool_decide_unpack _); vm_compute; reflexivity.
Qed.

End JsonExport.







(** * Further properties *)

(** ** The script of data_developer_utils.py *)

Section ScriptRuns.

Variables (st : state) (a b : pd.DataFrame).
Hypothesis Hp : csv_files st !! "archive(10)/Stress_Dataset.csv" = Some a.
Hypothesis Hq : csv_files st !! "archive(10)/StressLevelDataset.csv" = Some b.

(** The run of [main] when both files exist, branch by branch. *)
Lemma main_present :
  main st
  = let merged := pd.concat_axis1 a b in
    let built := loaded_from st "archive(10)/Stress_Dataset.csv"
                             "archive(10)/StressLevelDataset.csv" merged in
    if decide (has_null merged) then
      (Ret tt, printed built "Error: Missing values found in the data.")
    else if decide (has_required_columns merged) then
      match pd.to_json merged 4 with
      | Ret text => (Ret tt, exported st merged text)
      | Raise e => (Raise e, printed built "Data validation successful.")
      end
    else (Ret tt, printed built "Error: Missing expected columns.").
Proof.
  cbv zeta. unfold main.
  unfold mbind at 1, M_bind at 1. rewrite (init_both_present st _ _ a b Hp Hq).
  unfold mbind at 1, M_bind at 1.
  rewrite (validate_data_run _ (pd.concat_axis1 a b)) by reflexivity.
  destruct (decide (has_null _)); [done|].
  destruct (decide (has_required_columns _)); [|done].
  unfold mbind at 1, M_bind at 1.
  rewrite (get_data_as_json_run _ (pd.concat_axis1 a b)) by reflexivity.
  destruct (pd.to_json (pd.concat_axis1 a b) 4) as [text|e]; [|done].
  unfold write_text, print, printed, exported, mbind, M_bind. cbn.
  by rewrite <- app_assoc.
Qed.

End ScriptRuns.

Lemma shared_column_dup (a b : pd.DataFrame) c :
  c ∈ pd.columns a -> c ∈ pd.columns b ->
  ~ NoDup (pd.columns (pd.concat_axis1 a b)).
Proof.
  intros Ha Hb. rewrite concat_axis1_columns.
  intros (_ & Hdis & _)%NoDup_app. by apply (Hdis c).
Qed.



(** X2. When both files exist and the merged table has a null cell or
    lacks a required column, the script prints the reason, exports nothing
    and ends without an exception. *)
Theorem script_skips_invalid_table st a b :
  csv_files st !! "archive(10)/Stress_Dataset.csv" = Some a ->
  csv_files st !! "archive(10)/StressLevelDataset.csv" = Some b ->
  has_null (pd.concat_axis1 a b)
  \/ ~ has_required_columns (pd.concat_axis1 a b) ->
  fst (main st) = Ret tt
  /\ stdout (snd (main st))
     = stdout st
       ++ [if decide (has_null (pd.concat_axis1 a b))
           then "Error: Missing values found in the data."
           else "Error: Missing expected columns."]
  /\ text_files (snd (main st)) = text_files st.
Proof.
  intros Hp Hq Hbad. rewrite (main_present st a b Hp Hq). cbv zeta.
  destruct (decide (has_null _)); [done|].
  destruct (decide (has_required_columns _)); [tauto | done].
Qed.

Lemma script_skips_invalid_table_witness :
  fst (main (blank_state (on_disk source_a source_b_short))) = Ret tt
  /\ stdout (snd (main (blank_state (on_disk source_a source_b_short))))
     = ["Error: Missing values found in the data."]
  /\ text_files (snd (main (blank_state (on_disk source_a source_b_short)))) = ∅.
Proof.
  apply (script_skips_invalid_table
           (blank_state (on_disk source_a source_b_short))
           source_a source_b_short).
  - vm_compute. reflexivity.
  - vm_compute. reflexivity.
  - left. apply (bool_decide_unpack _). vm_compute. reflexivity.
Defined.



(** X4. When both files exist and have a column name in common, a merged
    table that validates is not exported: the script prints that validation
    succeeded and then ends with the [ValueError] of [to_json], having
    written nothing. *)
Theorem script_fails_on_shared_column st a b c :
  csv_files st !! "archive(10)/Stress_Dataset.csv" = Some a ->
  csv_files st !! "archive(10)/StressLevelDataset.csv" = Some b ->
  ~ has_null (pd.concat_axis1 a b) ->
  has_required_columns (pd.concat_axis1 a b) ->
  c ∈ pd.columns a -> c ∈ pd.columns b ->
  fst (main st)
  = Raise (ValueError "DataFrame columns must be unique for orient='records'.")
  /\ stdout (snd (main st)) = stdout st ++ ["Data validation successful."]
  /\ text_files (snd (main st)) = text_files st.
Proof.
  intros Hp Hq Hn Hc Ha Hb. rewrite (main_present st a b Hp Hq). cbv zeta.
  destruct (decide (has_null _)); [done|].
  destruct (decide (has_required_columns _)); [|done].
  unfold pd.to_json.
  destruct (decide (NoDup _)) as [Hnd|_]; [|done].
  by destruct (shared_column_dup a b c Ha Hb).
Qed.

Lemma script_fails_on_shared_column_witness :
  fst (main (blank_state (on_disk source_a source_b_age)))
  = Raise (ValueError "DataFrame columns must be unique for orient='records'.")
  /\ stdout (snd (main (blank_state (on_disk source_a source_b_age))))
     = ["Data validation successful."]
  /\ text_files (snd (main (blank_state (on_disk source_a source_b_age)))) = ∅.
Proof.
  apply (script_fails_on_shared_column
           (blank_state (on_disk source_a source_b_age))
           source_a source_b_age "Age").
  - vm_compute. reflexivity.
  - vm_compute. reflexivity.
  - apply (bool_decide_unpack _). vm_compute. reflexivity.
  - apply (bool_decide_unpack _). vm_compute. reflexivity.
  - apply (bool_decide_unpack _). vm_compute. reflexivity.
  - apply (bool_decide_unpack _). vm_compute. reflexivity.
Defined.

(** X5. Whatever files are there, missing or unreadable, the script never
    passes [None] to [f.write], never changes a CSV file, and writes no
    file other than [stress_data.json]; and it writes that file only for a
    merged table that has no null cell, has the required columns and has
    pairwise distinct column names. *)
Theorem script_outcomes st :
  (forall msg, fst (main st) <> Raise (TypeError msg))
  /\ csv_files (snd (main st)) = csv_files st
  /\ (forall path, path <> "stress_data.json" ->
        text_files (snd (main st)) !! path = text_files st !! path)
  /\ (text_files (snd (main st)) <> text_files st ->
      exists merged,
        df (self (snd (main st))) = Some merged
        /\ ~ has_null merged /\ has_required_columns merged
        /\ NoDup (pd.columns merged)).
Proof.
  destruct (csv_files st !! "archive(10)/Stress_Dataset.csv") as [a|] eqn:Hp.
  - destruct (csv_files st !! "archive(10)/StressLevelDataset.csv") as [b|] eqn:Hq.
    + rewrite (main_present st a b Hp Hq). cbv zeta.
      destruct (decide (has_null _)) as [|Hn];
        [split; [done|]; split; [done|]; split; done|].
      destruct (decide (has_required_columns _)) as [Hc|];
        [|split; [done|]; split; [done|]; split; done].
      unfold pd.to_json. destruct (decide (NoDup _)) as [Hnd|];
        [|split; [done|]; split; [done|]; split; done].
      split; [done|]. split; [done|]. split.
      * intros path Hne. cbn. by rewrite lookup_insert_ne.
      * intros _. by eexists.
    + destruct (unreadable st !! "archive(10)/StressLevelDataset.csv")
        as [f|] eqn:Hu.
      * rewrite (main_unreadable_file st f) by (right; eauto).
        split; [by destruct f|]. split; [done|]. split; done.
      * rewrite (main_missing_file st) by (right; split; [by eexists | done]).
        split; [done|]. split; [done|]. split; done.
  - destruct (unreadable st !! "archive(10)/Stress_Dataset.csv") as [f|] eqn:Hu.
    + rewrite (main_unreadable_file st f) by (left; eauto).
      split; [by destruct f|]. split; [done|]. split; done.
    + rewrite (main_missing_file st) by (by left).
      split; [done|]. split; [done|]. split; done.
Qed.

(** X18. A file that is there and cannot be read is not reported: when
    the first path is such a file, or the first file is read and the
    second path is such a file, [read_csv] raises an exception that
    [_load_and_merge_data] does not catch.  It leaves [__init__] before
    [df] is set, and it ends the script, nothing being printed or
    written. *)
Theorem unreadable_file_escapes st p q f :
  csv_files st !! p = None /\ unreadable st !! p = Some f
  \/ is_Some (csv_files st !! p)
     /\ csv_files st !! q = None /\ unreadable st !! q = Some f ->
  __init__ p q st = (Raise (raised f), paths_set st p q)
  /\ raised f <> FileNotFoundError
  /\ stdout (paths_set st p q) = stdout st
  /\ text_files (paths_set st p q) = text_files st
  /\ (p = "archive(10)/Stress_Dataset.csv" ->
      q = "archive(10)/StressLevelDataset.csv" ->
      main st = (Raise (raised f), paths_set st p q)).
Proof.
  intros H. split; [by apply init_unreadable|]. split; [by destruct f|].
  split; [done|]. split; [done|]. intros -> ->. by apply main_unreadable_file.
Qed.

Lemma unreadable_file_escapes_witness :
  main (blank_state_with ∅ disk_empty_file)
  = (Raise EmptyDataError,
     paths_set (blank_state_with ∅ disk_empty_file)
               "archive(10)/Stress_Dataset.csv"
               "archive(10)/StressLevelDataset.csv").
Proof.
  refine (proj2 (proj2 (proj2 (proj2
    (unreadable_file_escapes (blank_state_with ∅ disk_empty_file)
       "archive(10)/Stress_Dataset.csv" "archive(10)/StressLevelDataset.csv"
       no_columns _)))) eq_refl eq_refl).
  left. split; vm_compute; reflexivity.
Defined.

(** X19. Files that hold integers below [2^53] in magnitude, booleans,
    texts and empty cells, with column names that are pairwise distinct
    across both, are exported without loss, whether or not they have the
    same number of rows: [json.loads] reads the text of [get_data_as_json]
    back as the records of the merged table, every cell as its column
    holds it, the integers of a [float64] column being doubles. *)
Theorem integer_tables_round_trip st p q a b :
  csv_files st !! p = Some a -> csv_files st !! q = Some b ->
  integral a -> integral b ->
  NoDup (pd.columns a ++ pd.columns b) ->
  exists st' text,
    __init__ p q st = (Ret tt, st')
    /\ get_data_as_json st' = (Ret (Some text), st')
    /\ json.loads text = Some (pd.records (pd.concat_axis1 a b))
    /\ forall i j c, pd.iloc (pd.concat_axis1 a b) i j = Some c -> exact c.
Proof.
  intros Hp Hq Ha Hb Hnd.
  pose proof (integral_concat a b Ha Hb) as Hint.
  exists (loaded_from st p q (pd.concat_axis1 a b)),
         (json.dumps 4 (pd.records (pd.concat_axis1 a b))).
  split; [by apply init_both_present|]. split.
  { rewrite (get_data_as_json_run _ (pd.concat_axis1 a b)) by reflexivity.
    unfold pd.to_json. rewrite concat_axis1_columns.
    by destruct (decide (NoDup _)). }
  split.
  { rewrite loads_records by (by apply integral_typed).
    by rewrite reread_records by (by apply integral_exact). }
  intros i j c Hc. unfold pd.iloc in Hc.
  destruct (pd.series (pd.concat_axis1 a b) !! j) as [[col cells]|] eqn:Hj;
    [|done].
  cbn in Hc.
  pose proof (integral_exact _ Hint) as Hex. unfold all_exact in Hex.
  rewrite Forall_forall in Hex.
  specialize (Hex (col, cells) (list_elem_of_lookup_2 _ _ _ Hj)).
  rewrite Forall_forall in Hex. apply Hex. by eapply list_elem_of_lookup_2.
Qed.

Lemma integer_tables_round_trip_witness :
  exists st' text,
    __init__ "a.csv" "b.csv" (blank_state disk_short) = (Ret tt, st')
    /\ get_data_as_json st' = (Ret (Some text), st')
    /\ json.loads text
       = Some (pd.records (pd.concat_axis1 source_a source_b_short))
    /\ pd.iloc (pd.concat_axis1 source_a source_b_short) 0 3
       = Some (pd.Float (binary64.of_Z 14)).
Proof.
  destruct (integer_tables_round_trip (blank_state disk_short) "a.csv" "b.csv"
              source_a source_b_short)
    as (st' & text & Hinit & Hrun & Hload & _).
  - vm_compute. reflexivity.
  - vm_compute. reflexivity.
  - apply (bool_decide_unpack _). vm_compute. reflexivity.
  - apply (bool_decide_unpack _). vm_compute. reflexivity.
  - apply (bool_decide_unpack _). vm_compute. reflexivity.
  - exists st', text. split; [exact Hinit|]. split; [exact Hrun|].
    split; [exact Hload|]. vm_compute. reflexivity.
Defined.

(** ** From the files to the verdict *)

Lemma has_null_padded k (ss : list (string * list pd.cell)) :
  (exists s, s ∈ (prod_map id (fun s => s ++ replicate k pd.NaN) <$> ss)
             /\ pd.NaN ∈ s.2)
  <-> (exists s, s ∈ ss /\ pd.NaN ∈ s.2) \/ (0 < k)%nat /\ ss <> [].
Proof.
  split.
  - intros (s & Hin & Hnan). apply list_elem_of_fmap in Hin as ([c s0] & -> & Hin).
    cbn in Hnan. apply elem_of_app in Hnan as [Hnan|Hnan].
    + left. by exists (c, s0).
    + right. split; [destruct k; [by apply elem_of_nil in Hnan | lia]|].
      by intros ->; apply elem_of_nil in Hin.
  - intros [(s & Hin & Hnan)|[Hk Hss]].
    + exists (prod_map id (fun s => s ++ replicate k pd.NaN) s). split.
      * apply list_elem_of_fmap. by exists s.
      * destruct s as [c s0]. cbn in *. apply elem_of_app. by left.
    + destruct ss as [|[c s0] ss]; [done|].
      exists (c, s0 ++ replicate k pd.NaN). split; [by left|].
      cbn. apply elem_of_app. right. destruct k; [lia|]. by left.
Qed.

(** A merged table has a null cell exactly when a source has one or a
    column had to be filled up. *)
Lemma has_null_concat a b :
  pd.well_formed a -> pd.well_formed b ->
  has_null (pd.concat_axis1 a b) <-> has_null a \/ has_null b \/ padded a b.
Proof.
  intros Ha Hb. unfold has_null at 1. rewrite concat_axis1_series by done.
  split.
  - intros (s & [Hin|Hin]%elem_of_app & Hnan).
    + destruct (proj1 (has_null_padded _ _) (ex_intro _ s (conj Hin Hnan)))
        as [H|[Hk Hss]]; [by left|].
      right. right. left. split; [lia | done].
    + destruct (proj1 (has_null_padded _ _) (ex_intro _ s (conj Hin Hnan)))
        as [H|[Hk Hss]]; [by right; left|].
      right. right. right. split; [lia | done].
  - intros [H|[H|[[Hk Hss]|[Hk Hss]]]].
    + destruct (proj2 (has_null_padded (pd.index b - pd.index a) _) (or_introl H))
        as (s & Hin & Hnan).
      exists s. split; [apply elem_of_app; by left | done].
    + destruct (proj2 (has_null_padded (pd.index a - pd.index b) _) (or_introl H))
        as (s & Hin & Hnan).
      exists s. split; [apply elem_of_app; by right | done].
    + destruct (proj2 (has_null_padded (pd.index b - pd.index a) (pd.series a)))
        as (s & Hin & Hnan); [right; split; [lia | done]|].
      exists s. split; [apply elem_of_app; by left | done].
    + destruct (proj2 (has_null_padded (pd.index a - pd.index b) (pd.series b)))
        as (s & Hin & Hnan); [right; split; [lia | done]|].
      exists s. split; [apply elem_of_app; by right | done].
Qed.

Lemma required_columns_concat a b :
  has_required_columns (pd.concat_axis1 a b)
  <-> ["Gender"; "Age"; "stress_level"] ⊆ pd.columns a ++ pd.columns b.
Proof.
  unfold has_required_columns. rewrite concat_axis1_columns. split.
  - intros (Hg & Ha & Hs) c Hin.
    repeat (apply elem_of_cons in Hin as [->|Hin]; [done|]).
    by apply elem_of_nil in Hin.
  - intros Hsub. repeat split; apply Hsub; set_solver.
Qed.

(** X6. A handler built from two existing, well-formed files validates
    exactly when neither file has a null cell, no column had to be filled
    up for lack of rows, and each of [Gender], [Age] and [stress_level] is
    a column of one of the files. *)
Theorem handler_validates_iff st p q a b :
  csv_files st !! p = Some a -> csv_files st !! q = Some b ->
  pd.well_formed a -> pd.well_formed b ->
  exists st',
    __init__ p q st = (Ret tt, st')
    /\ (fst (validate_data st') = Ret true
        <-> ~ has_null a /\ ~ has_null b /\ ~ padded a b
            /\ ["Gender"; "Age"; "stress_level"] ⊆ pd.columns a ++ pd.columns b).
Proof.
  intros Hp Hq Ha Hb. eexists. split; [by apply init_both_present|].
  rewrite (validate_data_run _ (pd.concat_axis1 a b)) by reflexivity.
  pose proof (has_null_concat a b Ha Hb) as Hn.
  pose proof (required_columns_concat a b) as Hc.
  destruct (decide (has_null _)) as [H|H];
    [|destruct (decide (has_required_columns _)) as [H'|H']]; cbn.
  - split; [done|]. tauto.
  - split; [|done]. intros _. tauto.
  - split; [done|]. tauto.
Qed.

Lemma handler_validates_iff_witness :
  exists st',
    __init__ "a.csv" "b.csv" (blank_state disk_ok) = (Ret tt, st')
    /\ (fst (validate_data st') = Ret true
        <-> ~ has_null source_a /\ ~ has_null source_b
            /\ ~ padded source_a source_b
            /\ ["Gender"; "Age"; "stress_level"]
               ⊆ pd.columns source_a ++ pd.columns source_b).
Proof.
  apply (handler_validates_iff (blank_state disk_ok) "a.csv" "b.csv"
                               source_a source_b).
  - vm_compute. reflexivity.
  - vm_compute. reflexivity.
  - apply (bool_decide_unpack _). vm_compute. reflexivity.
  - apply (bool_decide_unpack _). vm_compute. reflexivity.
Defined.

(** X7. For a handler built from two existing files, each with column
    names of its own that are pairwise distinct, [get_data_as_json] raises
    exactly when the two files have a column name in common; the exception
    is the [ValueError] of [to_json], and otherwise a text is returned. *)
Theorem export_fails_iff_shared_column st p q a b :
  csv_files st !! p = Some a -> csv_files st !! q = Some b ->
  NoDup (pd.columns a) -> NoDup (pd.columns b) ->
  exists st',
    __init__ p q st = (Ret tt, st')
    /\ (fst (get_data_as_json st')
        = Raise (ValueError "DataFrame columns must be unique for orient='records'.")
        <-> exists c, c ∈ pd.columns a /\ c ∈ pd.columns b)
    /\ ((exists text, get_data_as_json st' = (Ret (Some text), st'))
        <-> ~ exists c, c ∈ pd.columns a /\ c ∈ pd.columns b).
Proof.
  intros Hp Hq Hna Hnb. eexists. split; [by apply init_both_present|].
  rewrite (get_data_as_json_run _ (pd.concat_axis1 a b)) by reflexivity.
  unfold pd.to_json. rewrite concat_axis1_columns.
  destruct (decide (NoDup (pd.columns a ++ pd.columns b))) as [Hnd|Hnd]; cbn.
  - apply NoDup_app in Hnd as (_ & Hdis & _). split.
    + split; [done|]. intros (c & Ha & Hb). by destruct (Hdis c).
    + split; [|by eexists]. intros _ (c & Ha & Hb). by destruct (Hdis c).
  - assert (Hshared : exists c, c ∈ pd.columns a /\ c ∈ pd.columns b).
    { destruct (decide (Exists (fun c => c ∈ pd.columns b) (pd.columns a)))
        as [(c & Ha & Hb)%Exists_exists|Hno]; [by exists c|].
      exfalso. apply Hnd, NoDup_app. split; [done|]. split; [|done].
      intros c Ha Hb. apply Hno, Exists_exists. by exists c. }
    split; [done|]. split; [by intros (text & [=])|]. tauto.
Qed.

Lemma export_fails_iff_shared_column_witness :
  exists st',
    __init__ "a.csv" "b.csv" (blank_state disk_dup) = (Ret tt, st')
    /\ (fst (get_data_as_json st')
        = Raise (ValueError "DataFrame columns must be unique for orient='records'.")
        <-> exists c, c ∈ pd.columns source_a /\ c ∈ pd.columns source_b_age).
Proof.
  destruct (export_fails_iff_shared_column (blank_state disk_dup) "a.csv" "b.csv"
              source_a source_b_age) as (st' & Hinit & Hiff & _).
  - vm_compute. reflexivity.
  - vm_compute. reflexivity.
  - apply (bool_decide_unpack _). vm_compute. reflexivity.
  - apply (bool_decide_unpack _). vm_compute. reflexivity.
  - exists st'. split; [exact Hinit | exact Hiff].
Defined.

Lemma no_rows_no_null d :
  pd.well_formed d -> pd.index d = 0%nat -> ~ has_null d.
Proof.
  intros Hwf H0 (s & Hin & Hnan). unfold pd.well_formed in Hwf.
  rewrite Forall_forall in Hwf. specialize (Hwf s Hin). rewrite H0 in Hwf.
  destruct (s.2); [by apply elem_of_nil in Hnan | done].
Qed.

(** X8. Files that hold a header and no row are not rejected: when the
    required columns are among their columns, the handler validates, and
    with pairwise distinct names the export is a text that reads back as
    the empty array. *)
Theorem empty_table_validates st p q a b :
  csv_files st !! p = Some a -> csv_files st !! q = Some b ->
  pd.well_formed a -> pd.well_formed b ->
  pd.index a = 0%nat -> pd.index b = 0%nat ->
  ["Gender"; "Age"; "stress_level"] ⊆ pd.columns a ++ pd.columns b ->
  NoDup (pd.columns a ++ pd.columns b) ->
  exists st' text,
    __init__ p q st = (Ret tt, st')
    /\ validate_data st' = (Ret true, printed st' "Data validation successful.")
    /\ get_data_as_json st' = (Ret (Some text), st')
    /\ json.loads text = Some (json.Arr []).
Proof.
  intros Hp Hq Ha Hb Ha0 Hb0 Hsub Hnd.
  exists (loaded_from st p q (pd.concat_axis1 a b)),
         (json.dumps 4 (pd.records (pd.concat_axis1 a b))).
  split; [by apply init_both_present|]. split; [|split].
  - rewrite (validate_data_run _ (pd.concat_axis1 a b)) by reflexivity.
    destruct (decide (has_null _)) as [H|_].
    { apply (has_null_concat a b Ha Hb) in H as [H|[H|H]].
      - by destruct (no_rows_no_null a).
      - by destruct (no_rows_no_null b).
      - unfold padded in H. lia. }
    destruct (decide (has_required_columns _)) as [_|H]; [done|].
    by destruct H; apply required_columns_concat.
  - rewrite (get_data_as_json_run _ (pd.concat_axis1 a b)) by reflexivity.
    unfold pd.to_json. rewrite concat_axis1_columns.
    by destruct (decide (NoDup _)).
  - unfold pd.records. rewrite concat_axis1_index, Ha0, Hb0. reflexivity.
Qed.

Lemma empty_table_validates_witness :
  exists st' text,
    __init__ "archive(10)/Stress_Dataset.csv" "archive(10)/StressLevelDataset.csv"
             (blank_state (on_disk header_only_a header_only_b)) = (Ret tt, st')
    /\ validate_data st' = (Ret true, printed st' "Data validation successful.")
    /\ get_data_as_json st' = (Ret (Some text), st')
    /\ json.loads text = Some (json.Arr []).
Proof.
  apply (empty_table_validates (blank_state (on_disk header_only_a header_only_b))
           _ _ header_only_a header_only_b).
  - vm_compute. reflexivity.
  - vm_compute. reflexivity.
  - apply (bool_decide_unpack _). vm_compute. reflexivity.
  - apply (bool_decide_unpack _). vm_compute. reflexivity.
  - reflexivity.
  - reflexivity.
  - apply (bool_decide_unpack _). vm_compute. reflexivity.
  - apply (bool_decide_unpack _). vm_compute. reflexivity.
Defined.

(** X9. [validate_data] reads nothing of a table but its column names and
    which cells are null: two loaded tables that agree on both get the same
    verdict and the same message, whatever values their cells hold. *)
Theorem validation_ignores_values st st' d d' :
  df (self st) = Some d -> df (self st') = Some d' ->
  pd.columns d = pd.columns d' -> pd.isnull d = pd.isnull d' ->
  exists verdict line,
    validate_data st = (Ret verdict, printed st line)
    /\ validate_data st' = (Ret verdict, printed st' line).
Proof.
  intros Hd Hd' Hcols Hnulls.
  rewrite (validate_data_run st d Hd), (validate_data_run st' d' Hd').
  assert (Hn : has_null d <-> has_null d')
    by (by rewrite <- !null_count_pos, Hnulls).
  assert (Hc : has_required_columns d <-> has_required_columns d')
    by (unfold has_required_columns; by rewrite Hcols).
  destruct (decide (has_null d)), (decide (has_null d')); try tauto;
    [by eexists _, _|].
  destruct (decide (has_required_columns d)),
    (decide (has_required_columns d')); try tauto; by eexists _, _.
Qed.

Lemma validation_ignores_values_witness :
  exists verdict line,
    validate_data (loaded (pd.concat_axis1 source_a source_b))
    = (Ret verdict, printed (loaded (pd.concat_axis1 source_a source_b)) line)
    /\ validate_data (loaded (pd.concat_axis1 source_a source_b_other))
       = (Ret verdict,
          printed (loaded (pd.concat_axis1 source_a source_b_other)) line).
Proof.
  apply (validation_ignores_values
           (loaded (pd.concat_axis1 source_a source_b))
           (loaded (pd.concat_axis1 source_a source_b_other))
           (pd.concat_axis1 source_a source_b)
           (pd.concat_axis1 source_a source_b_other)).
  - reflexivity.
  - reflexivity.
  - vm_compute. reflexivity.
  - vm_compute. reflexivity.
Defined.

(** ** Features and target in machine_learning_analysis.py *)

Section Selecting.
Import pd_getitem.

Lemma named_elem d label s : s ∈ named d label <-> s ∈ pd.series d /\ s.1 = label.
Proof. unfold named. by rewrite list_elem_of_filter, (comm and). Qed.

Lemma named_missing d label : label ∉ pd.columns d -> named d label = [].
Proof.
  intros Hno. unfold named, pd.columns in *.
  induction (pd.series d) as [|s ss IH]; [done|].
  cbn in Hno. apply not_elem_of_cons in Hno as [Hne Hno].
  rewrite filter_cons_False by done. by apply IH.
Qed.

(** With pairwise distinct names, a name that is a column selects that one
    column. *)
Lemma named_unique d label :
  NoDup (pd.columns d) -> label ∈ pd.columns d ->
  exists cells, named d label = [(label, cells)].
Proof.
  unfold named, pd.columns. induction (pd.series d) as [|[c cells] ss IH];
    [by intros _ ?%elem_of_nil|].
  cbn [fmap list_fmap fst]. intros [Hc Hnd]%NoDup_cons [->|Hin]%elem_of_cons.
  - exists cells. rewrite filter_cons_True by done. f_equal.
    change (filter (fun s : string * list pd.cell => s.1 = c) ss)
      with (named {| pd.index := 0; pd.series := ss |} c).
    by apply named_missing.
  - rewrite filter_cons_False; [by apply IH|].
    cbn. intros ->. done.
Qed.

Lemma getitem_list_found d labels :
  (exists r, getitem_list d labels = Found r) <-> labels ⊆ pd.columns d.
Proof.
  unfold getitem_list.
  destruct (filter (fun l => l ∉ pd.columns d) labels) as [|m ms] eqn:E.
  - split; [|by eexists]. intros _ l Hl.
    destruct (decide (l ∈ pd.columns d)) as [|Hno]; [done|].
    assert (l ∈ filter (fun l => l ∉ pd.columns d) labels)
      by (by apply list_elem_of_filter).
    rewrite E in *. by apply elem_of_nil in H.
  - split; [by intros (r & [=])|]. intros Hsub.
    assert (Hm : m ∈ filter (fun l => l ∉ pd.columns d) labels)
      by (rewrite E; by left).
    apply list_elem_of_filter in Hm as [Hno Hin]. by destruct Hno; apply Hsub.
Qed.

Lemma flat_map_named_columns d labels :
  NoDup (pd.columns d) -> labels ⊆ pd.columns d ->
  (flat_map (named d) labels).*1 = labels.
Proof.
  intros Hnd. induction labels as [|l ls IH]; [done|]. intros Hsub.
  destruct (named_unique d l Hnd) as (cells & E); [apply Hsub; by left|].
  cbn [flat_map]. rewrite E. cbn. f_equal. apply IH.
  intros x Hx. apply Hsub. by right.
Qed.

End Selecting.

(** X13. On a well-formed merged table with pairwise distinct column names
    that has every feature and the target, the selected features are the 20
    feature columns in the order of the list, each with the cells it has in
    the merged table; the target is a single series and is not among the
    selected columns; and features and target have one entry per row of the
    merged table, so row [i] of one belongs with row [i] of the other. *)
Theorem features_and_target_aligned merged :
  pd.well_formed merged -> NoDup (pd.columns merged) ->
  machine_learning_analysis.features ⊆ pd.columns merged ->
  machine_learning_analysis.target ∈ pd.columns merged ->
  exists selected labels,
    machine_learning_analysis.X merged = pd_getitem.Found selected
    /\ machine_learning_analysis.y merged
       = pd_getitem.Found (pd_getitem.Series labels)
    /\ pd.columns selected = machine_learning_analysis.features
    /\ (machine_learning_analysis.target ∉ pd.columns selected)
    /\ pd.series selected ⊆ pd.series merged
    /\ (machine_learning_analysis.target, labels) ∈ pd.series merged
    /\ pd.well_formed selected
    /\ pd.index selected = pd.index merged
    /\ length labels = pd.index merged.
Proof.
  intros Hwf Hnd Hsub Htarget.
  destruct (proj2 (getitem_list_found merged machine_learning_analysis.features)
              Hsub) as (selected & HX).
  destruct (named_unique merged machine_learning_analysis.target Hnd Htarget)
    as (labels & Hy).
  assert (Hsel : selected
    = {| pd.index := pd.index merged;
         pd.series := flat_map (pd_getitem.named merged)
                               machine_learning_analysis.features |}).
  { unfold pd_getitem.getitem_list in HX.
    destruct (filter _ machine_learning_analysis.features); [|done].
    by injection HX as <-. }
  assert (Hin : pd.series selected ⊆ pd.series merged).
  { subst selected. cbn [pd.series]. intros s Hs.
    apply list_elem_of_In, in_flat_map in Hs as (l & _ & Hs).
    apply list_elem_of_In in Hs. by apply named_elem in Hs as [Hs _]. }
  assert (Hlab : (machine_learning_analysis.target, labels) ∈ pd.series merged).
  { apply (named_elem merged machine_learning_analysis.target).
    rewrite Hy. by left. }
  assert (Hcols : pd.columns selected = machine_learning_analysis.features).
  { subst selected. unfold pd.columns. cbn [pd.series].
    by apply flat_map_named_columns. }
  exists selected, labels. split; [exact HX|]. split.
  { unfold machine_learning_analysis.y, pd_getitem.getitem. by rewrite Hy. }
  split; [exact Hcols|]. split.
  { rewrite Hcols. apply (bool_decide_unpack _). vm_compute. reflexivity. }
  split; [exact Hin|]. split; [exact Hlab|].
  unfold pd.well_formed in *. rewrite Forall_forall in Hwf. split; [|split].
  - assert (Hidx : pd.index selected = pd.index merged) by (by subst selected).
    apply Forall_forall. intros s Hs. rewrite Hidx. by apply Hwf, Hin.
  - by subst selected.
  - exact (Hwf _ Hlab).
Qed.

Lemma features_and_target_aligned_witness :
  exists selected labels,
    machine_learning_analysis.X features_frame = pd_getitem.Found selected
    /\ machine_learning_analysis.y features_frame
       = pd_getitem.Found (pd_getitem.Series labels)
    /\ pd.columns selected = machine_learning_analysis.features.
Proof.
  destruct (features_and_target_aligned features_frame)
    as (selected & labels & HX & Hy & Hcols & _).
  - apply (bool_decide_unpack _). vm_compute. reflexivity.
  - apply (bool_decide_unpack _). vm_compute. reflexivity.
  - apply (bool_decide_unpack _). vm_compute. reflexivity.
  - apply (bool_decide_unpack _). vm_compute. reflexivity.
  - exists selected, labels. split; [exact HX|]. split; [exact Hy | exact Hcols].
Defined.

(** ** The opening lines of the analysis scripts *)


(** ** The exported text *)

Section JsonMore.
Import json.

Lemma escape_char_plain c : forallb plain (escape_char c) = true.
Proof. destruct c as [[] [] [] [] [] [] [] []]; reflexivity. Qed.

Lemma quote_plain s : forallb plain (quote s) = true.
Proof.
  assert (H : forallb plain (flat_map escape_char (list_ascii_of_string s)) = true).
  { induction (list_ascii_of_string s) as [|c l IH]; [done|].
    cbn [flat_map]. by rewrite forallb_app, escape_char_plain, IH. }
  unfold quote. cbn [forallb]. rewrite forallb_app, H. reflexivity.
Qed.

Lemma chars_of_uint_plain u : forallb plain (chars_of_uint u) = true.
Proof. induction u; [done | exact IHu ..]. Qed.

Lemma chars_of_literal_plain l : forallb plain (chars_of_literal l) = true.
Proof.
  unfold chars_of_literal. rewrite !forallb_app, chars_of_uint_plain.
  destruct (negative l), (fraction l) as [f|], (exponent l) as [[[] u]|];
    cbn [forallb]; rewrite ?chars_of_uint_plain; reflexivity.
Qed.

Lemma encode_int_plain z : forallb plain (encode_int z) = true.
Proof. rewrite encode_int_literal. apply chars_of_literal_plain. Qed.

Lemma newline_plain indent : forallb plain (newline indent) = true.
Proof. unfold newline. by destruct (indent =? 0)%nat. Qed.

Lemma pad_plain indent level : forallb plain (pad indent level) = true.
Proof. unfold pad. induction (level * indent)%nat as [|n IH]; [done | exact IH]. Qed.

Lemma join_plain sep parts :
  forallb plain sep = true ->
  Forall (fun p => forallb plain p = true) parts ->
  forallb plain (join sep parts) = true.
Proof.
  intros Hsep [|p ps Hp Hps]; [done|]. cbn [join].
  rewrite forallb_app, Hp. cbn.
  induction Hps as [|q qs Hq _ IH]; [done|].
  cbn [flat_map]. by rewrite !forallb_app, Hsep, Hq, IH.
Qed.

(** The encoder writes plain characters only, whatever the strings of the
    document hold. *)
Lemma encode_plain indent level v : forallb plain (encode indent level v) = true.
Proof.
  revert level.
  induction v as [|b|z|f|s|l IH|l IH] using value_nested_ind; intros level.
  - reflexivity.
  - by destruct b.
  - apply encode_int_plain.
  - cbn [encode]. destruct (binary64.is_finite f); [|reflexivity].
    apply chars_of_literal_plain.
  - apply quote_plain.
  - cbn [encode forallb]. rewrite !forallb_app, newline_plain, pad_plain.
    rewrite join_plain; [done | cbn; by rewrite newline_plain |].
    apply Forall_forall. intros p (x & <- & Hx)%list_elem_of_In%in_map_iff.
    rewrite forallb_app, pad_plain. rewrite Forall_forall in IH.
    apply IH. by apply list_elem_of_In.
  - cbn [encode forallb]. rewrite !forallb_app, newline_plain, pad_plain.
    rewrite join_plain; [done | cbn; by rewrite newline_plain |].
    apply Forall_forall. intros p (m & <- & Hm)%list_elem_of_In%in_map_iff.
    rewrite !forallb_app, pad_plain, quote_plain. cbn [forallb].
    rewrite Forall_forall in IH. rewrite (IH m); [done|].
    by apply list_elem_of_In.
Qed.

End JsonMore.

(** X16. Whatever the cells of the table hold, a text returned by
    [get_data_as_json] consists of characters below 128 only and has no
    control character other than the line breaks of its layout. *)
Theorem exported_text_is_plain st text :
  fst (get_data_as_json st) = Ret (Some text) ->
  forallb plain (list_ascii_of_string text) = true.
Proof.
  destruct (df (self st)) as [d|] eqn:Hdf.
  - rewrite (get_data_as_json_run st d Hdf). unfold pd.to_json, json.dumps.
    destruct (decide (NoDup (pd.columns d))); [|done].
    cbn [fst]. intros H.
    replace text with (string_of_list_ascii (json.encode 4 0 (pd.records d)))
      by congruence.
    rewrite list_ascii_of_string_of_list_ascii.
    apply encode_plain.
  - by rewrite get_data_as_json_unloaded.
Qed.

Lemma exported_text_is_plain_witness :
  forallb plain (list_ascii_of_string (json.dumps 4 (pd.records source_text)))
  = true.
Proof.
  apply (exported_text_is_plain (loaded source_text)).
  vm_compute. reflexivity.
Defined.

(** ** Looking a column up in the merged table *)

Section Lookup.
Import pd_getitem.

Lemma named_fmap (f : list pd.cell -> list pd.cell)
    (ss : list (string * list pd.cell)) label :
  filter (fun s : string * list pd.cell => s.1 = label) (prod_map id f <$> ss)
  = prod_map id f <$> filter (fun s => s.1 = label) ss.
Proof.
  induction ss as [|[c cells] ss IH]; [done|]. cbn [fmap list_fmap].
  destruct (decide (c = label)) as [->|Hne].
  - rewrite !filter_cons_True by done. cbn [fmap list_fmap]. f_equal. exact IH.
  - rewrite !filter_cons_False by done. exact IH.
Qed.

Lemma named_concat a b label :
  named (pd.concat_axis1 a b) label
  = (prod_map id (pd.reindex (Nat.max (pd.index a) (pd.index b)))
       <$> named a label)
    ++ (prod_map id (pd.reindex (Nat.max (pd.index a) (pd.index b)))
       <$> named b label).
Proof.
  unfold named, pd.concat_axis1. cbn [pd.series].
  by rewrite filter_app, !named_fmap.
Qed.

End Lookup.

(** X17. Looking up one name in the merged table of two files, each with
    pairwise distinct column names: it is a [KeyError] exactly when neither
    file has the column, a single series exactly when one file has it, and
    a frame of two columns, not a series, exactly when both have it. *)
Theorem merged_column_lookup a b label :
  NoDup (pd.columns a) -> NoDup (pd.columns b) ->
  (pd_getitem.getitem (pd.concat_axis1 a b) label = pd_getitem.KeyError [label]
   <-> (label ∉ pd.columns a) /\ (label ∉ pd.columns b))
  /\ ((exists cells, pd_getitem.getitem (pd.concat_axis1 a b) label
                     = pd_getitem.Found (pd_getitem.Series cells))
      <-> (label ∈ pd.columns a) /\ (label ∉ pd.columns b)
          \/ (label ∉ pd.columns a) /\ (label ∈ pd.columns b))
  /\ ((exists both, pd_getitem.getitem (pd.concat_axis1 a b) label
                    = pd_getitem.Found (pd_getitem.Frame both)
                    /\ length (pd.series both) = 2%nat)
      <-> (label ∈ pd.columns a) /\ (label ∈ pd.columns b)).
Proof.
  intros Hna Hnb. unfold pd_getitem.getitem. rewrite named_concat.
  destruct (decide (label ∈ pd.columns a)) as [Ha|Ha],
    (decide (label ∈ pd.columns b)) as [Hb|Hb].
  - destruct (named_unique a label Hna Ha) as (ca & ->).
    destruct (named_unique b label Hnb Hb) as (cb & ->). cbn.
    split; [split; [done | tauto]|]. split.
    + split; [by intros (? & [=]) | tauto].
    + split; [done|]. intros _. by eexists.
  - destruct (named_unique a label Hna Ha) as (ca & ->).
    rewrite (named_missing b label Hb). cbn.
    split; [split; [done | tauto]|]. split.
    + split; [tauto|]. intros _. by eexists.
    + split; [by intros (? & [=] & _) | tauto].
  - rewrite (named_missing a label Ha).
    destruct (named_unique b label Hnb Hb) as (cb & ->). cbn.
    split; [split; [done | tauto]|]. split.
    + split; [tauto|]. intros _. by eexists.
    + split; [by intros (? & [=] & _) | tauto].
  - rewrite (named_missing a label Ha), (named_missing b label Hb). cbn.
    split; [done|]. split.
    + split; [by intros (? & [=]) | tauto].
    + split; [by intros (? & [=] & _) | tauto].
Qed.

Lemma merged_column_lookup_witness :
  exists both,
    pd_getitem.getitem (pd.concat_axis1 source_a source_b_age) "Age"
    = pd_getitem.Found (pd_getitem.Frame both)
    /\ length (pd.series both) = 2%nat.
Proof.
  refine (proj2 (proj2 (proj2
    (merged_column_lookup source_a source_b_age "Age" _ _))) _).
  - apply (bool_decide_unpack _). vm_compute. reflexivity.
  - apply (bool_decide_unpack _). vm_compute. reflexivity.
  - split; apply (bool_decide_unpack _); vm_compute; reflexivity.
Defined.
